(** * AI developments feed: date utilities and aggregation pipeline

    A shallow embedding of [src/utils/date.js] (the date helpers) and of
    [src/services/fetchDevelopments.js] (provider adapters and the
    fetch / fallback pipeline), with the properties of the design
    document stated and proved about it.  The parts of their callers that
    decide what the page shows are embedded too: the state transitions of
    [src/hooks/useRecentDevelopments.js], the startup flag of
    [src/index.js] and the provider name of [src/components/Health.jsx].

    Conventions of the embedding:
    - a JavaScript Number that holds an integer is a [Z]; [NaN] is kept as
      a separate value because the code tests for it.  Fractions and
      infinities are not represented;
    - a JavaScript string is a [string] whose characters are the code units
      0..255; [trim] and [toLowerCase] are the ECMAScript functions on that
      range;
    - [Date.now()] is read as one instant [now] for a whole invocation;
    - host functions the source calls but does not define ([Date.parse],
      [Date.prototype.toISOString], the [URL] parser, [fetch]) and the
      imported fixture [mockDevelopments.json] are Section variables. *)

From Stdlib Require Import ZArith Lia Ascii String List Bool Sorted.
From stdpp Require Import gmap strings list.

Local Open Scope Z_scope.

(* ===================================================================== *)
(** ** JavaScript values used by the source                              *)
(* ===================================================================== *)

(** Numbers: integers and NaN. *)
Inductive number : Type :=
  | Num (z : Z)
  | NaN.

Definition nsub (a b : number) : number :=
  match a, b with
  | Num x, Num y => Num (x - y)
  | _, _ => NaN
  end.

Definition nmul (a b : number) : number :=
  match a, b with
  | Num x, Num y => Num (x * y)
  | _, _ => NaN
  end.

(** [a < b]; every comparison with NaN is false. *)
Definition nlt (a b : number) : bool :=
  match a, b with
  | Num x, Num y => x <? y
  | _, _ => false
  end.

(** [a >= b]. *)
Definition nge (a b : number) : bool :=
  match a, b with
  | Num x, Num y => y <=? x
  | _, _ => false
  end.

(** [Math.floor(a / k)] for an integer divisor [k > 0]. *)
Definition floorDiv (a : number) (k : Z) : number :=
  match a with
  | Num x => Num (x / k)
  | NaN => NaN
  end.

(** [Number.isNaN]. *)
Definition isNaN (a : number) : bool :=
  match a with
  | NaN => true
  | Num _ => false
  end.

(** Truthiness of a number: neither 0 nor NaN. *)
Definition truthyNumber (a : number) : bool :=
  match a with
  | Num z => negb (z =? 0)
  | NaN => false
  end.

(** *** Decimal rendering, [String(n)] *)

Definition digitChar (d : Z) : ascii := ascii_of_N (Z.to_N (48 + d)).

(** Digits of a non-negative integer, least significant first. *)
Fixpoint digitsLE (fuel : nat) (n : Z) : list ascii :=
  match fuel with
  | O => []
  | S fuel' =>
      digitChar (n mod 10) :: (if n <? 10 then [] else digitsLE fuel' (n / 10))
  end.

Definition digitFuel (n : Z) : nat := S (Z.to_nat (Z.log2 n)).

Definition decimalOfNat (n : Z) : string :=
  string_of_list_ascii (rev (digitsLE (digitFuel n) n)).

(** [String(n)] for an integer of magnitude below 10^21, where ECMAScript
    prints every digit; a negative value carries its sign. *)
Definition integerToString (z : Z) : string :=
  if z <? 0 then String "-"%char (decimalOfNat (- z)) else decimalOfNat z.

Definition numberToString (a : number) : string :=
  match a with
  | Num z => integerToString z
  | NaN => "NaN"
  end.

(** Number of decimal digits of an integer (the sign is not a digit). *)
Definition decimalDigits (z : Z) : nat := String.length (decimalOfNat (Z.abs z)).

(** *** Strings *)

Definition charCode (c : ascii) : N := N_of_ascii c.

(** White space and line terminators among the code units 0..255:
    TAB, LF, VT, FF, CR, SPACE and NO-BREAK SPACE. *)
Definition isWhiteSpace (c : ascii) : bool :=
  let n := charCode c in
  ((9 <=? n) && (n <=? 13) || (n =? 32) || (n =? 160))%N.

Fixpoint trimStart (s : string) : string :=
  match s with
  | EmptyString => EmptyString
  | String c s' => if isWhiteSpace c then trimStart s' else s
  end.

Fixpoint trimEnd (s : string) : string :=
  match s with
  | EmptyString => EmptyString
  | String c s' =>
      match trimEnd s' with
      | EmptyString => if isWhiteSpace c then EmptyString else String c EmptyString
      | t => String c t
      end
  end.

(** [String.prototype.trim]. *)
Definition trim (s : string) : string := trimEnd (trimStart s).

(** Lower-case mapping of one code unit: A..Z and the Latin-1 capitals
    U+00C0..U+00DE (U+00D7, the multiplication sign, excepted). *)
Definition lowerChar (c : ascii) : ascii :=
  let n := charCode c in
  if ((65 <=? n) && (n <=? 90) || (192 <=? n) && (n <=? 222) && negb (n =? 215))%N
  then ascii_of_N (n + 32)
  else c.

(** [String.prototype.toLowerCase]. *)
Fixpoint toLowerCase (s : string) : string :=
  match s with
  | EmptyString => EmptyString
  | String c s' => String (lowerChar c) (toLowerCase s')
  end.

(** [s.includes(q)]: [q] occurs in [s] as a contiguous substring. *)
Fixpoint includes (s q : string) : bool :=
  String.prefix q s ||
  match s with
  | EmptyString => false
  | String _ s' => includes s' q
  end.

(** [s.replace(/^www\./, '')]. *)
Definition stripWww (s : string) : string :=
  match s with
  | String "w" (String "w" (String "w" (String "." rest))) => rest
  | _ => s
  end.

(** An optional property read from a JSON object: [None] is an absent
    (undefined or null) property.  An absent number reads as NaN where only
    its truthiness matters. *)
Definition truthyString (o : option string) : bool :=
  match o with
  | Some s => negb (String.eqb s "")
  | None => false
  end.

(** [o || d] for an optional string property. *)
Definition orString (o : option string) (d : string) : string :=
  match o with
  | Some s => if String.eqb s "" then d else s
  | None => d
  end.

(** [String.prototype.toUpperCase]: a..z and U+00E0..U+00FE (without
    U+00F7) go to their capitals.  The three code units whose capital is
    not one code unit below 256 (U+00B5, U+00DF, U+00FF) are left as they
    are; a string that holds one is not a provider name either way. *)
Definition upperChar (c : ascii) : ascii :=
  let n := charCode c in
  if ((97 <=? n) && (n <=? 122) || (224 <=? n) && (n <=? 254) && negb (n =? 247))%N
  then ascii_of_N (n - 32)
  else c.

Fixpoint toUpperCase (s : string) : string :=
  match s with
  | EmptyString => EmptyString
  | String c s' => String (upperChar c) (toUpperCase s')
  end.

(** *** Exceptions and the effects of an invocation *)

(** The error objects the code throws or receives from the host. *)
Inductive jsError : Type :=
  | ErrorObj (message : string)        (* new Error(message) *)
  | TypeErrorObj (message : string)    (* host TypeError *)
  | SyntaxErrorObj (message : string)  (* host SyntaxError *)
  | RangeErrorObj (message : string).  (* host RangeError *)

(** Result of an expression that may throw. *)
Inductive outcome (A : Type) : Type :=
  | Ok (a : A)
  | Throw (e : jsError).
Arguments Ok {A} a.
Arguments Throw {A} e.

Global Instance outcome_ret : MRet outcome := fun A a => Ok a.
Global Instance outcome_bind : MBind outcome := fun A B f m =>
  match m with
  | Ok a => f a
  | Throw e => Throw e
  end.

(** One HTTP GET: the endpoint, the query parameters handed to
    [URLSearchParams], and the request headers. *)
Record request : Type := mkRequest {
  endpoint : string;
  params : list (string * string);
  headers : list (string * string)
}.

(** An asynchronous computation: it may throw (reject) and it appends the
    requests it issues to the log of network attempts. *)
Definition M (A : Type) : Type := list request -> outcome A * list request.

Global Instance M_ret : MRet M := fun A a log => (Ok a, log).
Global Instance M_bind : MBind M := fun A B f m log =>
  match m log with
  | (Ok a, log') => f a log'
  | (Throw e, log') => (Throw e, log')
  end.

Definition throw {A : Type} (e : jsError) : M A := fun log => (Throw e, log).

Definition lift {A : Type} (o : outcome A) : M A := fun log => (o, log).

(** [try { body } catch (err) { handler(err) }]. *)
Definition tryCatch {A : Type} (body : M A) (handler : jsError -> M A) : M A :=
  fun log =>
    match body log with
    | (Ok a, log') => (Ok a, log')
    | (Throw e, log') => handler e log'
    end.

(* ===================================================================== *)
(** ** Data model                                                        *)
(* ===================================================================== *)

(** [Date] objects: the time value is an integer number of milliseconds in
    the range of ECMAScript time values, or NaN for an invalid date. *)
Record Date : Type := mkDate { getTime : number }.

Definition maxTimeValue : Z := 8640000000000000.

Definition TimeClip (v : number) : number :=
  match v with
  | Num t => if Z.abs t <=? maxTimeValue then Num t else NaN
  | NaN => NaN
  end.

(** [new Date(v)] for a number [v]. *)
Definition newDate (v : number) : Date := mkDate (TimeClip v).

(** What the date helpers accept: a Date, a number or a string. *)
Inductive timeInput : Type :=
  | InDate (d : Date)
  | InNumber (n : number)
  | InString (s : string).

(** DevelopmentItem. *)
Record Item : Type := mkItem {
  item_id : string;
  title : string;
  url : string;
  source : string;
  publishedAt : string;
  summary : option string;
  tags : option (list string);
  relativeTime : option string
}.

(** One element of the [hits] array of the Hacker News search response. *)
Record rawHit : Type := mkHit {
  hit_objectID : option string;
  hit_url : option string;
  hit_story_url : option string;
  hit_title : option string;
  hit_story_title : option string;
  hit_created_at_i : option number;
  hit_created_at : option string
}.

Record rawSource : Type := mkSource { source_name : option string }.

(** One element of the [articles] array of NewsAPI and GNews. *)
Record rawArticle : Type := mkArticle {
  art_url : option string;
  art_title : option string;
  art_publishedAt : option string;
  art_description : option string;
  art_source : option rawSource
}.

(** One record of the fixture [mockDevelopments.json]. *)
Record rawMock : Type := mkMock {
  mock_id : option string;
  mock_title : option string;
  mock_url : option string;
  mock_source : option string;
  mock_publishedAt : option string;
  mock_summary : option string;
  mock_tags : option (list string)
}.

(** What [res.json()] gives: a rejection with a SyntaxError (the body is
    not JSON), the value null, or an object with optional [hits] and
    [articles] arrays. *)
Inductive jsonBody : Type :=
  | JsonReject (message : string)
  | JsonNull
  | JsonObject (hits : option (list rawHit)) (articles : option (list rawArticle)).

Record response : Type := mkResponse {
  res_ok : bool;
  res_status : Z;
  res_json : jsonBody
}.

(** What [fetch] gives: a rejection with a TypeError (the request could
    not be made) or a response. *)
Inductive fetchOutcome : Type :=
  | FetchReject (message : string)
  | FetchResolve (r : response).

(** [process.env]. *)
Record processEnv : Type := mkEnv {
  REACT_APP_DATA_PROVIDER : option string;
  REACT_APP_USE_MOCK : option string;
  REACT_APP_NEWSAPI_KEY : option string;
  REACT_APP_GNEWS_KEY : option string
}.

(** The parts of [window] the service reads: [searchParams.get('mock')]
    of the location's query string, the location's hash, and the
    truthiness of [window.__USE_MOCK]. *)
Record windowEnv : Type := mkWindow {
  mockParam : option string;
  location_hash : string;
  USE_MOCK : bool
}.

(** The result envelope. *)
Record result : Type := mkResult {
  items : list Item;
  usedMock : bool
}.

(* ===================================================================== *)
(** ** Notions used to state the properties                              *)
(* ===================================================================== *)

(** Value of a digit character and of a digit list, least significant
    digit first: the inverse of [digitsLE]. *)
Definition digitValue (c : ascii) : Z := Z.of_N (N_of_ascii c) - 48.

Fixpoint valueLE (l : list ascii) : Z :=
  match l with
  | [] => 0
  | c :: l' => digitValue c + 10 * valueLE l'
  end.

(** The display buckets of a relative time, with their counts. *)
Inductive bucket : Type :=
  | BNow
  | BMinutes (m : Z)
  | BHours (h : Z)
  | BDays (d : Z).

Definition renderBucket (b : bucket) : string :=
  match b with
  | BNow => "now"
  | BMinutes m => integerToString m +:+ "m ago"
  | BHours h => integerToString h +:+ "h ago"
  | BDays d => integerToString d +:+ "d ago"
  end.

(** The counts a bucket can carry: 1..59 minutes, 1..23 hours, 1 day or
    more. *)
Definition bucketWf (b : bucket) : Prop :=
  match b with
  | BNow => True
  | BMinutes m => 1 <= m < 60
  | BHours h => 1 <= h < 24
  | BDays d => 1 <= d
  end.

(** Units ordered now < minutes < hours < days. *)
Definition bucketUnit (b : bucket) : Z :=
  match b with
  | BNow => 0
  | BMinutes _ => 1
  | BHours _ => 2
  | BDays _ => 3
  end.

Definition bucketCount (b : bucket) : Z :=
  match b with
  | BNow => 0
  | BMinutes m => m
  | BHours h => h
  | BDays d => d
  end.

(** [b1] is not more recent than [b2]: a later unit, or the same unit with
    a count at least as large. *)
Definition notMoreRecent (b1 b2 : bucket) : Prop :=
  bucketUnit b2 < bucketUnit b1 \/
  (bucketUnit b1 = bucketUnit b2 /\ bucketCount b2 <= bucketCount b1).

(** The bucket of a time difference in milliseconds, by the tests of
    [formatRelativeTime]. *)
Definition bucketOfDiff (diffMs : Z) : bucket :=
  if diffMs <? 0 then BNow else
  let seconds := diffMs / 1000 in
  if seconds <? 60 then BNow else
  let minutes := seconds / 60 in
  if minutes <? 60 then BMinutes minutes else
  let hours := minutes / 60 in
  if hours <? 24 then BHours hours else
  BDays (hours / 24).

Definition isDigitChar (c : ascii) : bool :=
  ((48 <=? N_of_ascii c) && (N_of_ascii c <=? 57))%N.

(** Every bucket prints as digits (none for "now") followed by a letter
    that names its unit. *)
Definition bucketDigits (b : bucket) : list ascii :=
  match b with
  | BNow => []
  | BMinutes n | BHours n | BDays n => rev (digitsLE (digitFuel n) n)
  end.

Definition bucketLetter (b : bucket) : ascii :=
  match b with
  | BNow => "n" | BMinutes _ => "m" | BHours _ => "h" | BDays _ => "d"
  end%char.

Definition bucketTail (b : bucket) : string :=
  match b with BNow => "ow" | _ => " ago" end.

(** The test of the title filter: the lower-cased title contains the
    trimmed, lower-cased query. *)
Definition matchesQuery (query : string) (it : Item) : Prop :=
  includes (toLowerCase (title it)) (toLowerCase (trim query)) = true.

Global Instance matchesQuery_dec (query : string) (it : Item) :
  Decision (matchesQuery query it).
Proof. unfold matchesQuery. apply _. Defined.

(* ===================================================================== *)
(** ** A concrete host and fixtures for the examples                     *)
(* ===================================================================== *)

(** The clock reads 2024-01-04T00:00:00.000Z. *)
Definition sampleNow : Z := 1704326400000.

(** A date parser that knows the dates of the examples. *)
Definition sampleParse (s : string) : number :=
  if String.eqb s "2024-01-01T00:00:00.000Z" then Num 1704067200000
  else if String.eqb s "2024-01-03T12:00:00.000Z" then Num 1704283200000
  else NaN.

Definition sampleToISOString (t : Z) : string :=
  if t =? 1704067200000 then "2024-01-01T00:00:00.000Z"
  else if t =? 1704153600000 then "2024-01-02T00:00:00.000Z"
  else if t =? 1704283200000 then "2024-01-03T12:00:00.000Z"
  else "2024-01-04T00:00:00.000Z".

Definition sampleHostname (u : string) : option string :=
  if String.prefix "https://www.example.com/" u then Some "www.example.com" else None.

(** A network without connection: every [fetch] rejects. *)
Definition networkDown (r : request) : fetchOutcome := FetchReject "Failed to fetch".

(** A fixture whose two records are 72 hours old at [sampleNow]. *)
Definition staleFixture : list rawMock :=
  [ {| mock_id := Some "m1";
       mock_title := Some "OpenAI ships a GPT update";
       mock_url := Some "https://www.example.com/gpt";
       mock_source := None;
       mock_publishedAt := Some "2024-01-01T00:00:00.000Z";
       mock_summary := None;
       mock_tags := None |};
    {| mock_id := Some "m2";
       mock_title := Some "Claude learns a new trick";
       mock_url := Some "https://www.example.com/claude";
       mock_source := None;
       mock_publishedAt := Some "2024-01-01T00:00:00.000Z";
       mock_summary := None;
       mock_tags := None |} ].

(** Environments: nothing set; mock configured; a keyed provider selected
    with both keys present. *)
Definition envLive : processEnv :=
  {| REACT_APP_DATA_PROVIDER := None; REACT_APP_USE_MOCK := None;
     REACT_APP_NEWSAPI_KEY := None; REACT_APP_GNEWS_KEY := None |}.

Definition envConfiguredMock : processEnv :=
  {| REACT_APP_DATA_PROVIDER := None; REACT_APP_USE_MOCK := Some "true";
     REACT_APP_NEWSAPI_KEY := None; REACT_APP_GNEWS_KEY := None |}.

Definition envKeyed : processEnv :=
  {| REACT_APP_DATA_PROVIDER := Some "newsapi"; REACT_APP_USE_MOCK := None;
     REACT_APP_NEWSAPI_KEY := Some "k-123"; REACT_APP_GNEWS_KEY := Some "k-456" |}.

(** Windows: a plain location, and a location opened with [?mock=1]
    (index.js then also sets the global flag). *)
Definition windowPlain : windowEnv :=
  {| mockParam := None; location_hash := ""; USE_MOCK := false |}.

Definition windowForced : windowEnv :=
  {| mockParam := Some "1"; location_hash := ""; USE_MOCK := true |}.

Definition sampleItem (u t : string) : Item :=
  {| item_id := u; title := t; url := u; source := "example.com";
     publishedAt := "2024-01-03T12:00:00.000Z";
     summary := None; tags := None; relativeTime := None |}.

(* ===================================================================== *)
(** ** State of the hook and of the page                                 *)
(* ===================================================================== *)

(** The state cells of [useRecentDevelopments]. *)
Record hookState : Type := mkHookState {
  st_items : list Item;
  st_query : string;
  st_debouncedQuery : string;
  st_loading : bool;
  st_error : option string;
  st_lastUpdated : option Z;
  st_mockActive : bool
}.

(** The initial values given to [useState]. *)
Definition initialHookState : hookState :=
  {| st_items := []; st_query := ""; st_debouncedQuery := "";
     st_loading := false; st_error := None; st_lastUpdated := None;
     st_mockActive := false |}.

Definition setItems (v : list Item) (st : hookState) : hookState :=
  {| st_items := v; st_query := st_query st;
     st_debouncedQuery := st_debouncedQuery st; st_loading := st_loading st;
     st_error := st_error st; st_lastUpdated := st_lastUpdated st;
     st_mockActive := st_mockActive st |}.

Definition setQuery (v : string) (st : hookState) : hookState :=
  {| st_items := st_items st; st_query := v;
     st_debouncedQuery := st_debouncedQuery st; st_loading := st_loading st;
     st_error := st_error st; st_lastUpdated := st_lastUpdated st;
     st_mockActive := st_mockActive st |}.

Definition setDebouncedQuery (v : string) (st : hookState) : hookState :=
  {| st_items := st_items st; st_query := st_query st;
     st_debouncedQuery := v; st_loading := st_loading st;
     st_error := st_error st; st_lastUpdated := st_lastUpdated st;
     st_mockActive := st_mockActive st |}.

Definition setLoading (v : bool) (st : hookState) : hookState :=
  {| st_items := st_items st; st_query := st_query st;
     st_debouncedQuery := st_debouncedQuery st; st_loading := v;
     st_error := st_error st; st_lastUpdated := st_lastUpdated st;
     st_mockActive := st_mockActive st |}.

Definition setError (v : option string) (st : hookState) : hookState :=
  {| st_items := st_items st; st_query := st_query st;
     st_debouncedQuery := st_debouncedQuery st; st_loading := st_loading st;
     st_error := v; st_lastUpdated := st_lastUpdated st;
     st_mockActive := st_mockActive st |}.

Definition setLastUpdated (v : option Z) (st : hookState) : hookState :=
  {| st_items := st_items st; st_query := st_query st;
     st_debouncedQuery := st_debouncedQuery st; st_loading := st_loading st;
     st_error := st_error st; st_lastUpdated := v;
     st_mockActive := st_mockActive st |}.

Definition setMockActive (v : bool) (st : hookState) : hookState :=
  {| st_items := st_items st; st_query := st_query st;
     st_debouncedQuery := st_debouncedQuery st; st_loading := st_loading st;
     st_error := st_error st; st_lastUpdated := st_lastUpdated st;
     st_mockActive := v |}.

(** [err.message]. *)
Definition errorMessage (e : jsError) : string :=
  match e with
  | ErrorObj m | TypeErrorObj m | SyntaxErrorObj m | RangeErrorObj m => m
  end.

(** The timer callback of the debounce effect,
    [setDebouncedQuery(query.trim())], run when the query has been still
    for 300 ms. *)
Definition debounceFire (st : hookState) : hookState :=
  setDebouncedQuery (trim (st_query st)) st.

(** The memo [filteredItems]. *)
Definition filteredItems (st : hookState) : list Item :=
  if String.eqb (st_debouncedQuery st) "" then st_items st else
  let q := toLowerCase (st_debouncedQuery st) in
  filter (fun it => includes (toLowerCase (title it)) q = true) (st_items st).

(** [bootstrapMockFlag] of index.js: at startup the location is read once
    and the global flag is set when it asks for mock data. *)
Definition bootstrapMockFlag (w : windowEnv) : windowEnv :=
  let hasQueryMock :=
    match mockParam w with
    | Some p =>
        negb (String.eqb p "") &&
        bool_decide (toLowerCase p ∈ ["1"; "true"; "on"; "yes"])
    | None => false
    end in
  let hasHashMock := includes (toLowerCase (location_hash w)) "mock" in
  if hasQueryMock || hasHashMock
  then {| mockParam := mockParam w; location_hash := location_hash w;
          USE_MOCK := true |}
  else w.

(** The constant [provider] of the Health page,
    [env ? String(env).toUpperCase() : "HN"], as it is shown
    ([provider || "unknown"]). *)
Definition healthProvider (e : processEnv) : string :=
  let p := if truthyString (REACT_APP_DATA_PROVIDER e)
           then toUpperCase (orString (REACT_APP_DATA_PROVIDER e) "")
           else "HN" in
  if String.eqb p "" then "unknown" else p.

(** A story of 2024-01-03T12:00:00Z in an HN response. *)
Definition sampleHit : rawHit :=
  {| hit_objectID := Some "39000001";
     hit_url := Some "https://www.example.com/story";
     hit_story_url := None;
     hit_title := Some "Llama runs on a toaster";
     hit_story_title := None;
     hit_created_at_i := Some (Num 1704283200);
     hit_created_at := Some "2024-01-03T12:00:00.000Z" |}.

(** A second story whose date does not parse, and a network that answers
    the HN request with both. *)
Definition badDateHit : rawHit :=
  {| hit_objectID := Some "39000002";
     hit_url := Some "https://www.example.com/other";
     hit_story_url := None;
     hit_title := Some "GPT writes a sonnet";
     hit_story_title := None;
     hit_created_at_i := None;
     hit_created_at := Some "yesterday" |}.

Definition networkBadDate (r : request) : fetchOutcome :=
  FetchResolve {| res_ok := true; res_status := 200;
                  res_json := JsonObject (Some [sampleHit; badDateHit]) None |}.

Definition datedItem (u t p : string) : Item :=
  {| item_id := u; title := t; url := u; source := "example.com";
     publishedAt := p; summary := None; tags := None; relativeTime := None |}.

(* ===================================================================== *)
(** ** Values outside the documented parameter types                     *)
(* ===================================================================== *)

(** The JavaScript values a caller can hand to a date helper: the
    primitives and Date objects.  [VNumber] carries the numbers of the
    development, the integers and NaN; the two infinities have a
    constructor of their own.  Numbers with a fraction and objects other
    than Date (their conversion runs code of their own) are left out. *)
Inductive jsValue : Type :=
  | VUndefined
  | VNull
  | VBool (b : bool)
  | VNumber (n : number)
  | VInfinity (negative : bool)
  | VString (s : string)
  | VSymbol
  | VBigInt (z : Z)
  | VDate (d : Date).

(** A Number that may be infinite. *)
Inductive extNumber : Type :=
  | Finite (a : number)
  | Infinite (negative : bool).

(** A Date, number or string as a value. *)
Definition valueOfInput (x : timeInput) : jsValue :=
  match x with
  | InDate d => VDate d
  | InNumber n => VNumber n
  | InString s => VString s
  end.

(** The integers are those that [String] prints digit by digit and that
    [Number] converts from a BigInt without reaching an infinity:
    magnitude below 10^21. *)
Definition integerRange (v : jsValue) : Prop :=
  match v with
  | VNumber (Num n) => Z.abs n < 10 ^ 21
  | VBigInt z => Z.abs z < 10 ^ 21
  | _ => True
  end.

(** The strings on which [toUpperCase] above is the ECMAScript function:
    those without U+00B5, U+00DF and U+00FF. *)
Definition upperCaseExact (s : string) : Prop :=
  Forall (fun c => charCode c <> 181%N /\ charCode c <> 223%N /\ charCode c <> 255%N)
         (list_ascii_of_string s).

(** Windows opened with [?mock=1] alone and with [#mock] alone, before
    any global flag is set. *)
Definition windowQuery : windowEnv :=
  {| mockParam := Some "1"; location_hash := ""; USE_MOCK := false |}.

Definition windowHash : windowEnv :=
  {| mockParam := None; location_hash := "#mock"; USE_MOCK := false |}.

(** A reading of strings as numbers that knows "48" and "Infinity". *)
Definition sampleToNumber (s : string) : extNumber :=
  if String.eqb s "48" then Finite (Num 48)
  else if String.eqb s "Infinity" then Infinite false
  else Finite NaN.

(* ===================================================================== *)
(** ** The program                                                       *)
(* ===================================================================== *)

Section Program.

Set Default Proof Using "Type".

(** The clock: the value of [Date.now()].  The program reads the clock
    anew in every call of [nowMinusHours] and [formatRelativeTime]; here
    one reading stands for a whole invocation, so nothing below relates
    two tests made at different readings of the clock. *)
Variable now : Z.
(** [Date.parse]: the time value of a date string, NaN when the string
    is not a date. *)
Variable Date_parse : string -> number.
(** [Date.prototype.toISOString] on a valid time value. *)
Variable Date_toISOString : Z -> string.
(** [new URL(u).hostname], [None] when the constructor throws. *)
Variable URL_hostname : string -> option string.
(** The network as seen through [fetch]. *)
Variable network : request -> fetchOutcome.
(** The imported fixture [mockDevelopments.json]. *)
Variable staticMock : list rawMock.
(** [process.env] and [window]. *)
Variable env : processEnv.
Variable window : windowEnv.

(** *** src/utils/date.js *)

(** [new Date(s)] for a string [s]. *)
Definition newDateOfString (s : string) : Date := mkDate (TimeClip (Date_parse s)).

(** [Number(hours) || 0]. *)
Definition hoursOrZero (hours : number) : number :=
  if truthyNumber hours then hours else Num 0.

Definition nowMinusHours (hours : number) : Date :=
  let ms := nsub (Num now) (nmul (hoursOrZero hours) (Num (60 * 60 * 1000))) in
  newDate ms.

(** The constant [date] of [formatRelativeTime]. *)
Definition dateOfInput (isoOrDate : timeInput) : Date :=
  match isoOrDate with
  | InDate d => d
  | InNumber n =>
      if (String.length (numberToString n) <=? 10)%nat
      then newDate (nmul n (Num 1000))
      else newDate n
  | InString s => newDateOfString s
  end.

Definition formatRelativeTime (isoOrDate : timeInput) : string :=
  let date := dateOfInput isoOrDate in
  let diffMs := nsub (Num now) (getTime date) in
  if nlt diffMs (Num 0) then "now" else
  let seconds := floorDiv diffMs 1000 in
  if nlt seconds (Num 60) then "now" else
  let minutes := floorDiv seconds 60 in
  if nlt minutes (Num 60) then numberToString minutes +:+ "m ago" else
  let hours := floorDiv minutes 60 in
  if nlt hours (Num 24) then numberToString hours +:+ "h ago" else
  let days := floorDiv hours 24 in
  numberToString days +:+ "d ago".

(** The variable [tsMs] of [isWithinLastHours]. *)
Definition tsMsOfInput (isoOrUnix : timeInput) : number :=
  match isoOrUnix with
  | InDate d => getTime d
  | InNumber n =>
      if (String.length (numberToString n) <=? 10)%nat
      then nmul n (Num 1000)
      else n
  | InString s => getTime (newDateOfString s)
  end.

Definition isWithinLastHours (isoOrUnix : timeInput) (hours : number) : bool :=
  let windowStart := getTime (nowMinusHours hours) in
  let tsMs := tsMsOfInput isoOrUnix in
  if isNaN tsMs then false else nge tsMs windowStart.

(** [d.toISOString()]: a RangeError on an invalid date. *)
Definition toISOString (d : Date) : outcome string :=
  match getTime d with
  | Num t => Ok (Date_toISOString t)
  | NaN => Throw (RangeErrorObj "Invalid time value")
  end.

(** [new Date().toISOString()]: the clock is always a valid time value. *)
Definition nowISOString : string := Date_toISOString now.

(** *** src/services/fetchDevelopments.js *)

Definition getDomain (u : string) : string :=
  match URL_hostname u with
  | Some h => stripWww h
  | None => ""
  end.

Definition buildAiQuery : string :=
  "AI OR LLM OR GPT OR OpenAI OR Anthropic OR Claude OR Llama OR Gemini OR Stable Diffusion OR Cohere".

(** The [catch] branch of the source serves hosts without
    [window.location]; here [window] is always there. *)
Definition urlMockEnabled : bool :=
  let hasQueryMock :=
    match mockParam window with
    | Some p =>
        negb (String.eqb p "") &&
        bool_decide (toLowerCase p ∈ ["1"; "true"; "on"; "yes"])
    | None => false
    end in
  let hasHashMock := includes (toLowerCase (location_hash window)) "mock" in
  let globalFlag := USE_MOCK window in
  hasQueryMock || hasHashMock || globalFlag.

Definition buildMockEntry (idx : nat) (m : rawMock) : Item :=
  {| item_id := orString (mock_id m) ("mock-" +:+ numberToString (Num (Z.of_nat idx)));
     title := orString (mock_title m) "AI development";
     url := orString (mock_url m) "https://example.com";
     source :=
       orString (mock_source m)
                (if truthyString (mock_url m)
                 then getDomain (orString (mock_url m) "")
                 else "mock");
     publishedAt := orString (mock_publishedAt m) nowISOString;
     summary := Some (orString (mock_summary m) "");
     tags := mock_tags m;
     relativeTime := None |}.

Definition buildMockData : list Item := imap buildMockEntry staticMock.

Definition hasTitleAndUrl (x : Item) : bool :=
  negb (String.eqb (title x) "") && negb (String.eqb (url x) "").

Definition normalizeHit (h : rawHit) : outcome Item :=
  let u := orString (hit_url h) (orString (hit_story_url h) "") in
  let t := orString (hit_title h) (orString (hit_story_title h) "") in
  let created_at_i := default NaN (hit_created_at_i h) in
  let publishedMs :=
    if truthyNumber created_at_i then nmul created_at_i (Num 1000)
    else if truthyString (hit_created_at h)
         then getTime (newDateOfString (orString (hit_created_at h) ""))
         else Num now in
  iso ← toISOString (newDate publishedMs);
  mret {| item_id := orString (hit_objectID h) (numberToString publishedMs +:+ "-" +:+ t);
          title := t;
          url := u;
          source := (let d := getDomain u in
                     if String.eqb d "" then "news.ycombinator.com" else d);
          publishedAt := iso;
          summary := None;
          tags := None;
          relativeTime := None |}.

Definition normalizeFromHN (hits : list rawHit) : outcome (list Item) :=
  mapped ← mapM normalizeHit hits;
  mret (filter (fun x => hasTitleAndUrl x = true) mapped).

Definition normalizeArticle (fallback : string) (idx : nat) (a : rawArticle)
  : outcome Item :=
  let u := orString (art_url a) "" in
  let t := orString (art_title a) "" in
  iso ← (if truthyString (art_publishedAt a)
         then toISOString (newDateOfString (orString (art_publishedAt a) ""))
         else Ok nowISOString);
  mret {| item_id := orString (art_url a) (numberToString (Num (Z.of_nat idx)));
          title := t;
          url := u;
          source := (let d := getDomain u in
                     if negb (String.eqb d "") then d
                     else match art_source a with
                          | Some s => orString (source_name s) fallback
                          | None => fallback
                          end);
          publishedAt := iso;
          summary := Some (orString (art_description a) "");
          tags := None;
          relativeTime := None |}.

(** [articles.map((a, idx) => ...)] with a callback that may throw. *)
Fixpoint mapArticles (fallback : string) (idx : nat) (l : list rawArticle)
  : outcome (list Item) :=
  match l with
  | [] => Ok []
  | a :: rest =>
      x ← normalizeArticle fallback idx a;
      xs ← mapArticles fallback (S idx) rest;
      mret (x :: xs)
  end.

Definition normalizeFromNewsAPI (articles : list rawArticle) : outcome (list Item) :=
  mapped ← mapArticles "newsapi" 0 articles;
  mret (filter (fun x => hasTitleAndUrl x = true) mapped).

Definition normalizeFromGNews (articles : list rawArticle) : outcome (list Item) :=
  mapped ← mapArticles "gnews" 0 articles;
  mret (filter (fun x => hasTitleAndUrl x = true) mapped).

(** The constant [key] of the loop of [dedupeByUrl],
    [(item.url || '').trim()]. *)
Definition urlKey (item : Item) : string := trim (url item).

(** The loop of [dedupeByUrl]: [seen] is the Set of keys, [out] the
    array being built. *)
Fixpoint dedupeLoop (seen : gset string) (out : list Item) (l : list Item)
  : list Item :=
  match l with
  | [] => out
  | item :: rest =>
      let key := urlKey item in
      if String.eqb key "" || bool_decide (key ∈ seen)
      then dedupeLoop seen out rest
      else dedupeLoop ({[ key ]} ∪ seen) (out ++ [item]) rest
  end.

Definition dedupeByUrl (l : list Item) : list Item := dedupeLoop ∅ [] l.

Definition filterWithinHours (l : list Item) (hours : number) : list Item :=
  filter (fun it => isWithinLastHours (InString (publishedAt it)) hours = true) l.

Definition applyTitleFilter (l : list Item) (query : string) : list Item :=
  if String.eqb query "" then l else
  let q := toLowerCase (trim query) in
  if String.eqb q "" then l else
  filter (fun it => includes (toLowerCase (title it)) q = true) l.

(** [{ ...it, relativeTime: formatRelativeTime(it.publishedAt) }]. *)
Definition withRelativeTime (it : Item) : Item :=
  {| item_id := item_id it; title := title it; url := url it;
     source := source it; publishedAt := publishedAt it;
     summary := summary it; tags := tags it;
     relativeTime := Some (formatRelativeTime (InString (publishedAt it))) |}.

Definition addRelativeTime (l : list Item) : list Item := map withRelativeTime l.

(** [Array.prototype.sort] with a comparator: a stable insertion sort; a
    comparator result that is not positive (NaN included) leaves the
    earlier element first.  ECMAScript fixes the result of a sort only for
    a consistent comparator; [byPublishedDesc] is consistent when every
    date parses, and then every stable sort gives this list.  When a date
    does not parse the comparator answers NaN and the order is the
    engine's own: the result is a permutation of the input, and nothing
    more is stated about it below. *)
Fixpoint insertBy {A : Type} (cmp : A -> A -> number) (x : A) (l : list A) : list A :=
  match l with
  | [] => [x]
  | y :: l' => if nlt (Num 0) (cmp x y) then y :: insertBy cmp x l' else x :: l
  end.

Definition sortBy {A : Type} (cmp : A -> A -> number) (l : list A) : list A :=
  foldr (insertBy cmp) [] l.

(** [(a, b) => new Date(b.publishedAt) - new Date(a.publishedAt)]. *)
Definition byPublishedDesc (a b : Item) : number :=
  nsub (getTime (newDateOfString (publishedAt b)))
       (getTime (newDateOfString (publishedAt a))).

(** [await fetch(...)]: the request is logged, then the network answers. *)
Definition fetch (r : request) : M response :=
  fun log =>
    (match network r with
     | FetchReject message => Throw (TypeErrorObj message)
     | FetchResolve res => Ok res
     end, log ++ [r]).

(** [await res.json()] followed by the property read [data.hits] or
    [data.articles]: reading a property of null is a TypeError. *)
Definition jsonHits (res : response) : outcome (list rawHit) :=
  match res_json res with
  | JsonReject message => Throw (SyntaxErrorObj message)
  | JsonNull => Throw (TypeErrorObj "Cannot read properties of null")
  | JsonObject hits _ => Ok (default [] hits)
  end.

Definition jsonArticles (res : response) : outcome (list rawArticle) :=
  match res_json res with
  | JsonReject message => Throw (SyntaxErrorObj message)
  | JsonNull => Throw (TypeErrorObj "Cannot read properties of null")
  | JsonObject _ articles => Ok (default [] articles)
  end.

Definition HOURS : number := Num 48.

(** The request of the HN branch. *)
Definition hnRequest : request :=
  let query := buildAiQuery in
  {| endpoint := "https://hn.algolia.com/api/v1/search_by_date";
     params := [("tags", "story"); ("query", query);
                ("restrictSearchableAttributes", "title");
                ("hitsPerPage", "50")];
     headers := [] |}.

Definition fetchFromHN : M (list Item) :=
  res ← fetch hnRequest;
  if negb (res_ok res)
  then throw (ErrorObj ("HN fetch failed: " +:+ numberToString (Num (res_status res))))
  else
    hits ← lift (jsonHits res);
    normalized ← lift (normalizeFromHN hits);
    mret (filter (fun n =>
                    nge (getTime (newDateOfString (publishedAt n)))
                        (getTime (nowMinusHours HOURS)) = true)
                 normalized).

Definition fetchFromNewsAPI : M (list Item) :=
  let query := buildAiQuery in
  let key := REACT_APP_NEWSAPI_KEY env in
  if negb (truthyString key)
  then throw (ErrorObj "Missing REACT_APP_NEWSAPI_KEY for NEWSAPI provider")
  else
    fromIso ← lift (toISOString (nowMinusHours HOURS));
    let req := {| endpoint := "https://newsapi.org/v2/everything";
                  params := [("q", "(" +:+ query +:+ ")"); ("sortBy", "publishedAt");
                             ("pageSize", "50"); ("from", fromIso);
                             ("language", "en")];
                  headers := [("Authorization", "Bearer " +:+ orString key "")] |} in
    res ← fetch req;
    if negb (res_ok res)
    then throw (ErrorObj ("NewsAPI fetch failed: " +:+ numberToString (Num (res_status res))))
    else
      articles ← lift (jsonArticles res);
      lift (normalizeFromNewsAPI articles).

Definition fetchFromGNews : M (list Item) :=
  let query := buildAiQuery in
  let key := REACT_APP_GNEWS_KEY env in
  if negb (truthyString key)
  then throw (ErrorObj "Missing REACT_APP_GNEWS_KEY for GNEWS provider")
  else
    fromIso ← lift (toISOString (nowMinusHours HOURS));
    let req := {| endpoint := "https://gnews.io/api/v4/search";
                  params := [("q", query); ("max", "50"); ("from", fromIso);
                             ("sortBy", "publishedAt");
                             ("token", orString key ""); ("lang", "en")];
                  headers := [] |} in
    res ← fetch req;
    if negb (res_ok res)
    then throw (ErrorObj ("GNews fetch failed: " +:+ numberToString (Num (res_status res))))
    else
      articles ← lift (jsonArticles res);
      lift (normalizeFromGNews articles).

(** The recursive call of the last line, [fetchFromProvider('HN')], always
    takes the first branch, so it is written as that branch. *)
Definition fetchFromProvider (provider : string) : M (list Item) :=
  if String.eqb provider "HN" then fetchFromHN
  else if String.eqb provider "NEWSAPI" then fetchFromNewsAPI
  else if String.eqb provider "GNEWS" then fetchFromGNews
  else fetchFromHN.

(** The closures of [fetchDevelopments]. *)
Definition runPipeline (queryText : string) (l : list Item) : list Item :=
  let deduped := dedupeByUrl l in
  let filtered := applyTitleFilter deduped queryText in
  let sorted := sortBy byPublishedDesc filtered in
  addRelativeTime sorted.

Definition prepareMock (forceMock : bool) (queryText : string) : list Item :=
  let mock := buildMockData in
  let within := filterWithinHours mock HOURS in
  let hasWithin := (0 <? length within)%nat in
  let base := if forceMock && negb hasWithin then mock else within in
  runPipeline queryText base.

(** The constants [provider] and [envMock] of [fetchDevelopments]. *)
Definition provider : string :=
  toUpperCase (orString (REACT_APP_DATA_PROVIDER env) "HN").

Definition envMock : bool :=
  String.eqb (toLowerCase (orString (REACT_APP_USE_MOCK env) "false")) "true".

Definition fetchDevelopments (queryText : string) : M result :=
  let forceMock := urlMockEnabled in
  let mockOn := envMock || forceMock in
  tryCatch
    (if mockOn
     then mret {| items := prepareMock forceMock queryText; usedMock := true |}
     else
       fetched ← fetchFromProvider provider;
       if (length fetched =? 0)%nat
       then mret {| items := prepareMock forceMock queryText; usedMock := true |}
       else
         let processed := filterWithinHours fetched HOURS in
         if (length processed =? 0)%nat
         then mret {| items := prepareMock forceMock queryText; usedMock := true |}
         else mret {| items := runPipeline queryText processed; usedMock := false |})
    (fun err =>
       mret {| items := prepareMock forceMock queryText; usedMock := true |}).


(** *** src/utils/date.js: [toUnixSeconds] *)

(** A number given to [toUnixSeconds] goes to [new Date(date)], which
    reads it as milliseconds. *)
Definition toUnixSeconds (date : timeInput) : number :=
  let d := match date with
           | InDate d => d
           | InNumber n => newDate n
           | InString s => newDateOfString s
           end in
  floorDiv (getTime d) 1000.

(** *** src/hooks/useRecentDevelopments.js: [refresh] *)

(** [mountedAfter] is the value of [mountedRef.current] when the awaited
    call settles. *)
Definition refresh (mountedAfter : bool) (st : hookState) : M hookState :=
  let st := setLoading true st in
  let st := setError None st in
  st' ← tryCatch
          (r ← fetchDevelopments "";
           if negb mountedAfter then mret st
           else
             let st := setItems (items r) st in
             let st := setMockActive (usedMock r) st in
             mret (setLastUpdated (Some now) st))
          (fun err =>
             if negb mountedAfter then mret st
             else mret (setError
                          (Some (orString (Some (errorMessage err))
                                          "Failed to load developments."))
                          st));
  mret (if mountedAfter then setLoading false st' else st').

(** *** Notions for the properties of the result *)

(** The instant of an item's [publishedAt], 0 when it does not parse. *)
Definition publishedInstant (it : Item) : Z :=
  match getTime (newDateOfString (publishedAt it)) with
  | Num t => t
  | NaN => 0
  end.

(** Newest first. *)
Definition newestFirst (a b : Item) : Prop :=
  publishedInstant b <= publishedInstant a.

(** The constant [publishedMs] of the callback of [normalizeFromHN]. *)
Definition hitPublishedMs (h : rawHit) : number :=
  let created_at_i := default NaN (hit_created_at_i h) in
  if truthyNumber created_at_i then nmul created_at_i (Num 1000)
  else if truthyString (hit_created_at h)
       then getTime (newDateOfString (orString (hit_created_at h) ""))
       else Num now.

(** The three endpoints the service knows. *)
Definition knownEndpoint (r : request) : Prop :=
  endpoint r = "https://hn.algolia.com/api/v1/search_by_date" \/
  endpoint r = "https://newsapi.org/v2/everything" \/
  endpoint r = "https://gnews.io/api/v4/search".

(** *** [isWithinLastHours] on any value *)

(** [StringToNumber] of the host, used by [Number(hours)] on a string. *)
Variable String_toNumber : string -> extNumber.

(** [Number(v)]: a TypeError on a Symbol. *)
Definition toNumberOf (v : jsValue) : outcome extNumber :=
  match v with
  | VUndefined => Ok (Finite NaN)
  | VNull => Ok (Finite (Num 0))
  | VBool b => Ok (Finite (Num (if b then 1 else 0)))
  | VNumber n => Ok (Finite n)
  | VInfinity negative => Ok (Infinite negative)
  | VString s => Ok (String_toNumber s)
  | VSymbol => Throw (TypeErrorObj "Cannot convert a Symbol value to a number")
  | VBigInt z => Ok (Finite (Num z))
  | VDate d => Ok (Finite (getTime d))
  end.

(** [new Date(v)]: a Date is copied, a string is parsed, every other
    value goes through ToNumber, which throws on a Symbol and on a
    BigInt; an infinity is no time value. *)
Definition newDateOfValue (v : jsValue) : outcome Date :=
  match v with
  | VUndefined => Ok (newDate NaN)
  | VNull => Ok (newDate (Num 0))
  | VBool b => Ok (newDate (Num (if b then 1 else 0)))
  | VNumber n => Ok (newDate n)
  | VInfinity _ => Ok (newDate NaN)
  | VString s => Ok (newDateOfString s)
  | VSymbol => Throw (TypeErrorObj "Cannot convert a Symbol value to a number")
  | VBigInt _ => Throw (TypeErrorObj "Cannot convert a BigInt value to a number")
  | VDate d => Ok (mkDate (getTime d))
  end.

(** [nowMinusHours(hours).getTime()] after [Number(hours)]: with infinite
    hours the subtraction [Date.now() - hours * 60 * 60 * 1000] is an
    infinity, and the Date made of it is invalid. *)
Definition windowStartOf (h : extNumber) : number :=
  match h with
  | Finite a => getTime (nowMinusHours a)
  | Infinite _ => NaN
  end.

(** The three branches for [tsMs].  "Infinity" and "-Infinity" have at
    most 10 characters, and an infinity times 1000 is itself. *)
Definition tsMsOfValue (isoOrUnix : jsValue) : outcome extNumber :=
  match isoOrUnix with
  | VDate d => Ok (Finite (getTime d))
  | VNumber n =>
      Ok (Finite (if (String.length (numberToString n) <=? 10)%nat
                  then nmul n (Num 1000)
                  else n))
  | VInfinity negative => Ok (Infinite negative)
  | v => d ← newDateOfValue v; Ok (Finite (getTime d))
  end.

(** [if (Number.isNaN(tsMs)) return false; return tsMs >= windowStart]:
    the positive infinity is at or above every number, the negative one
    above none, and nothing compares with NaN. *)
Definition atOrAfter (tsMs : extNumber) (windowStart : number) : bool :=
  match tsMs with
  | Finite a => if isNaN a then false else nge a windowStart
  | Infinite negative => negb negative && negb (isNaN windowStart)
  end.

(** [isWithinLastHours] line by line on any value, with the conversions
    that can throw: [Number(hours)] inside [nowMinusHours], then the
    branches for [tsMs]. *)
Definition isWithinLastHoursJS (isoOrUnix hours : jsValue) : outcome bool :=
  h ← toNumberOf hours;
  let windowStart := windowStartOf h in
  tsMs ← tsMsOfValue isoOrUnix;
  mret (atOrAfter tsMs windowStart).

(** *** Notions for the window test, in the words of the design document *)

(** The start of the window, [hours] hours before the clock, when it is a
    valid time value; hours that are NaN count as 0. *)
Definition windowStartMs (h : extNumber) : option Z :=
  match h with
  | Finite a =>
      let start := now - (match a with Num z => z | NaN => 0 end) * (60 * 60 * 1000) in
      if Z.abs start <=? maxTimeValue then Some start else None
  | Infinite _ => None
  end.

(** The instant of a value in milliseconds since the epoch: the time
    value of a valid Date, the parsed time value of a date string, and for
    an integer [n] the number [n * 1000] when [-10^9 < n < 10^10] (its
    rendering has at most ten characters) and [n] itself otherwise, with
    no bound.  undefined, NaN, an invalid Date and a string that is not a
    date have no instant; null and the booleans convert to 0 and 1; the
    infinities are treated apart. *)
Definition instantMs (v : jsValue) : option Z :=
  match v with
  | VUndefined => None
  | VNull => Some 0
  | VBool b => Some (if b then 1 else 0)
  | VNumber (Num n) =>
      Some (if (- 10 ^ 9 <? n) && (n <? 10 ^ 10) then n * 1000 else n)
  | VNumber NaN => None
  | VInfinity _ => None
  | VString s =>
      match Date_parse s with
      | Num t => if Z.abs t <=? maxTimeValue then Some t else None
      | NaN => None
      end
  | VSymbol => None
  | VBigInt _ => None
  | VDate d =>
      match getTime d with
      | Num t => Some t
      | NaN => None
      end
  end.

(** A value that is a point in time for the Date type: an instant within
    the range of time values. *)
Definition validInstant (v : jsValue) : Prop :=
  exists t, instantMs v = Some t /\ Z.abs t <= maxTimeValue.

(** The runtime override in the words of the design document: the URL
    parameter [mock] with one of the values 1, true, on, yes (in any
    case), or a hash that contains "mock" (in any case), or the
    process-wide flag. *)
Definition runtimeOverride : Prop :=
  (exists p, mockParam window = Some p /\
             toLowerCase p ∈ ["1"; "true"; "on"; "yes"]) \/
  includes (toLowerCase (location_hash window)) "mock" = true \/
  USE_MOCK window = true.

(** *** Notions for the unit of a numeric input *)

(** Both helpers read the integer [n] as seconds since the epoch: the
    date of [formatRelativeTime] and the instant of [isWithinLastHours]
    are those of [n * 1000] milliseconds. *)
Definition readAsSeconds (n : Z) : Prop :=
  dateOfInput (InNumber (Num n)) = newDate (Num (n * 1000)) /\
  tsMsOfInput (InNumber (Num n)) = Num (n * 1000).

(** Both helpers read the integer [n] as milliseconds since the epoch. *)
Definition readAsMilliseconds (n : Z) : Prop :=
  dateOfInput (InNumber (Num n)) = newDate (Num n) /\
  tsMsOfInput (InNumber (Num n)) = Num n.

(* =================================================================== *)
(** ** Facts about the JavaScript primitives                           *)
(* =================================================================== *)

Ltac each_char c := destruct c as [[] [] [] [] [] [] [] []]; vm_compute; reflexivity.

Lemma lowerChar_idem (c : ascii) : lowerChar (lowerChar c) = lowerChar c.
Proof. each_char c. Qed.

Lemma isWhiteSpace_lowerChar (c : ascii) : isWhiteSpace (lowerChar c) = isWhiteSpace c.
Proof. each_char c. Qed.

Lemma toLowerCase_idem (s : string) : toLowerCase (toLowerCase s) = toLowerCase s.
Proof.
  induction s as [|c s IH]; simpl; [reflexivity|].
  now rewrite lowerChar_idem, IH.
Qed.

Lemma trimStart_toLowerCase (s : string) :
  trimStart (toLowerCase s) = toLowerCase (trimStart s).
Proof.
  induction s as [|c s IH]; simpl; [reflexivity|].
  rewrite isWhiteSpace_lowerChar.
  destruct (isWhiteSpace c); [exact IH | reflexivity].
Qed.

Lemma trimEnd_toLowerCase (s : string) :
  trimEnd (toLowerCase s) = toLowerCase (trimEnd s).
Proof.
  induction s as [|c s IH]; simpl; [reflexivity|].
  rewrite IH, isWhiteSpace_lowerChar.
  destruct (trimEnd s) as [|d t]; simpl; [|reflexivity].
  destruct (isWhiteSpace c); reflexivity.
Qed.

Lemma trim_toLowerCase (s : string) : trim (toLowerCase s) = toLowerCase (trim s).
Proof. unfold trim. now rewrite trimStart_toLowerCase, trimEnd_toLowerCase. Qed.

Lemma trimEnd_idem (s : string) : trimEnd (trimEnd s) = trimEnd s.
Proof.
  induction s as [|c s IH]; simpl; [reflexivity|].
  destruct (trimEnd s) as [|d t] eqn:E.
  - destruct (isWhiteSpace c) eqn:W; simpl; [reflexivity|].
    now rewrite W.
  - change (trimEnd (String c (String d t))) with
      (match trimEnd (String d t) with
       | EmptyString => if isWhiteSpace c then EmptyString else String c EmptyString
       | u => String c u
       end).
    now rewrite IH.
Qed.

(** A string trimmed at the start is empty or starts with a character
    that is not white space. *)
Lemma trimStart_head (s : string) :
  trimStart s = "" \/
  exists c t, trimStart s = String c t /\ isWhiteSpace c = false.
Proof.
  induction s as [|c s IH]; simpl; [now left|].
  destruct (isWhiteSpace c) eqn:W; [exact IH|].
  right. now exists c, s.
Qed.

Lemma trimStart_trimEnd_trimStart (s : string) :
  trimStart (trimEnd (trimStart s)) = trimEnd (trimStart s).
Proof.
  destruct (trimStart_head s) as [-> | (c & t & -> & W)]; [reflexivity|].
  cbn [trimEnd]. destruct (trimEnd t); rewrite ?W; cbn [trimStart]; now rewrite W.
Qed.

Lemma trim_idem (s : string) : trim (trim s) = trim s.
Proof.
  unfold trim. now rewrite trimStart_trimEnd_trimStart, trimEnd_idem.
Qed.

(** The normal form of a query, [String(query).trim().toLowerCase()], is
    its own normal form. *)
Lemma normalizedQuery_idem (q : string) :
  toLowerCase (trim (toLowerCase (trim q))) = toLowerCase (trim q).
Proof. now rewrite trim_toLowerCase, trim_idem, toLowerCase_idem. Qed.

Lemma digitValue_digitChar (d : Z) : 0 <= d < 10 -> digitValue (digitChar d) = d.
Proof.
  intros Hd. unfold digitValue, digitChar.
  rewrite N_ascii_embedding by lia. lia.
Qed.

Lemma valueLE_digitsLE (fuel : nat) :
  forall n, 0 <= n < 2 ^ Z.of_nat fuel -> valueLE (digitsLE fuel n) = n.
Proof.
  induction fuel as [|fuel IH]; intros n Hn.
  - simpl in *. lia.
  - cbn [digitsLE valueLE].
    rewrite digitValue_digitChar by (apply Z.mod_pos_bound; lia).
    rewrite Nat2Z.inj_succ, Z.pow_succ_r in Hn by lia.
    destruct (n <? 10) eqn:E.
    + apply Z.ltb_lt in E. cbn [valueLE]. rewrite Z.mod_small; lia.
    + apply Z.ltb_ge in E. rewrite IH.
      * pose proof (Z.div_mod n 10). lia.
      * split; [apply Z.div_pos; lia|].
        apply Z.div_lt_upper_bound; lia.
Qed.

Lemma digitFuel_enough (n : Z) : 0 <= n -> n < 2 ^ Z.of_nat (digitFuel n).
Proof.
  intros Hn. unfold digitFuel.
  rewrite Nat2Z.inj_succ, Z2Nat.id by apply Z.log2_nonneg.
  destruct (Z.eq_dec n 0) as [-> | Hne]; [reflexivity|].
  apply Z.log2_spec. lia.
Qed.

Lemma string_of_list_ascii_inj (l1 l2 : list ascii) :
  string_of_list_ascii l1 = string_of_list_ascii l2 -> l1 = l2.
Proof.
  intros H. rewrite <- (list_ascii_of_string_of_list_ascii l1).
  rewrite H. apply list_ascii_of_string_of_list_ascii.
Qed.

Lemma string_of_list_ascii_length (l : list ascii) :
  String.length (string_of_list_ascii l) = length l.
Proof. induction l; simpl; congruence. Qed.

(** The decimal rendering determines the number. *)
Lemma decimalOfNat_inj (n m : Z) :
  0 <= n -> 0 <= m -> decimalOfNat n = decimalOfNat m -> n = m.
Proof.
  intros Hn Hm H. unfold decimalOfNat in H.
  apply string_of_list_ascii_inj in H.
  apply (f_equal (@rev ascii)) in H. rewrite !rev_involutive in H.
  rewrite <- (valueLE_digitsLE (digitFuel n) n), <- (valueLE_digitsLE (digitFuel m) m).
  - now rewrite H.
  - split; [lia | now apply digitFuel_enough].
  - split; [lia | now apply digitFuel_enough].
Qed.

Lemma digitsLE_length (fuel : nat) :
  forall n k, 0 <= n < 2 ^ Z.of_nat fuel -> 1 <= k ->
    (Z.of_nat (length (digitsLE fuel n)) <= k <-> n < 10 ^ k).
Proof.
  induction fuel as [|fuel IH]; intros n k Hn Hk.
  - simpl in *. split; intros _; [|lia].
    assert (0 < 10 ^ k) by (apply Z.pow_pos_nonneg; lia). lia.
  - cbn [digitsLE length].
    rewrite Nat2Z.inj_succ, Z.pow_succ_r in Hn by lia.
    assert (Hpow : 10 ^ k = 10 * 10 ^ (k - 1)).
    { rewrite <- Z.pow_succ_r by lia. f_equal. lia. }
    assert (Hpos : 0 < 10 ^ (k - 1)) by (apply Z.pow_pos_nonneg; lia).
    destruct (n <? 10) eqn:E.
    + apply Z.ltb_lt in E. simpl. split; intros _; lia.
    + apply Z.ltb_ge in E.
      assert (Hq : 0 <= n / 10 < 2 ^ Z.of_nat fuel).
      { split; [apply Z.div_pos; lia | apply Z.div_lt_upper_bound; lia]. }
      assert (Hq1 : 1 <= n / 10) by (apply Z.div_le_lower_bound; lia).
      destruct (Z.eq_dec k 1) as [-> | Hk1].
      * destruct fuel as [|fuel']; [simpl in Hq; lia|].
        cbn [digitsLE length]. split; intros; lia.
      * rewrite Nat2Z.inj_succ.
        specialize (IH (n / 10) (k - 1) Hq ltac:(lia)).
        pose proof (Z.div_mod n 10) as Hdm.
        pose proof (Z.mod_pos_bound n 10) as Hmb.
        split; intros H.
        -- assert (n / 10 < 10 ^ (k - 1)) by (apply IH; lia). lia.
        -- assert (n / 10 < 10 ^ (k - 1)) by (apply Z.div_lt_upper_bound; lia).
           apply IH in H0. lia.
Qed.

(** A non-negative integer has at most [k] decimal digits exactly when it
    is below [10^k]. *)
Lemma decimalOfNat_length (n k : Z) :
  0 <= n -> 1 <= k ->
  (Z.of_nat (String.length (decimalOfNat n)) <= k <-> n < 10 ^ k).
Proof.
  intros Hn Hk. unfold decimalOfNat.
  rewrite string_of_list_ascii_length, length_rev.
  apply digitsLE_length; [|assumption].
  split; [lia | now apply digitFuel_enough].
Qed.

Lemma decimalDigits_le_10 (z : Z) :
  (decimalDigits z <= 10)%nat <-> Z.abs z < 10 ^ 10.
Proof.
  unfold decimalDigits.
  rewrite <- (decimalOfNat_length (Z.abs z) 10) by lia. lia.
Qed.

(* =================================================================== *)
(** ** Date utilities                                                  *)
(* =================================================================== *)

(** On a valid date [formatRelativeTime] prints the bucket of the time
    elapsed since it. *)
Lemma formatRelativeTime_bucket (x : timeInput) (t : Z) :
  getTime (dateOfInput x) = Num t ->
  formatRelativeTime x = renderBucket (bucketOfDiff (now - t)).
Proof.
  intros Ht. unfold formatRelativeTime, bucketOfDiff. rewrite Ht.
  cbn [nsub nlt floorDiv numberToString].
  repeat (match goal with |- context [if ?b then _ else _] => destruct b end;
          try reflexivity).
Qed.

Lemma bucketOfDiff_wf (d : Z) : bucketWf (bucketOfDiff d).
Proof.
  unfold bucketOfDiff.
  repeat (match goal with |- context [?a <? ?b] => destruct (Z.ltb_spec a b) end;
          cbn [bucketWf]; try exact I);
    first [ split; [apply Z.div_le_lower_bound; lia | lia]
          | apply Z.div_le_lower_bound; lia ].
Qed.

Lemma bucketOfDiff_mono (d1 d2 : Z) :
  0 <= d2 -> d2 <= d1 -> notMoreRecent (bucketOfDiff d1) (bucketOfDiff d2).
Proof.
  intros H0 H12. unfold bucketOfDiff, notMoreRecent.
  assert (Hs : d2 / 1000 <= d1 / 1000) by (apply Z.div_le_mono; lia).
  assert (Hm : d2 / 1000 / 60 <= d1 / 1000 / 60) by (apply Z.div_le_mono; lia).
  assert (Hh : d2 / 1000 / 60 / 60 <= d1 / 1000 / 60 / 60)
    by (apply Z.div_le_mono; lia).
  assert (Hd : d2 / 1000 / 60 / 60 / 24 <= d1 / 1000 / 60 / 60 / 24)
    by (apply Z.div_le_mono; lia).
  repeat (match goal with |- context [?a <? ?b] => destruct (Z.ltb_spec a b) end;
          cbn [bucketUnit bucketCount]; try lia).
Qed.

(** *** The rendering of buckets is injective *)

Lemma isDigitChar_digitChar (d : Z) : 0 <= d < 10 -> isDigitChar (digitChar d) = true.
Proof.
  intros Hd. unfold isDigitChar, digitChar.
  rewrite N_ascii_embedding by lia.
  apply andb_true_intro; split; apply N.leb_le; lia.
Qed.

Lemma digitsLE_isDigit (fuel : nat) (n : Z) :
  Forall (fun c => isDigitChar c = true) (digitsLE fuel n).
Proof.
  revert n. induction fuel as [|fuel IH]; intros n; cbn [digitsLE]; constructor.
  - apply isDigitChar_digitChar, Z.mod_pos_bound. lia.
  - destruct (n <? 10); [constructor | apply IH].
Qed.

Lemma append_nil_l (s : string) : "" +:+ s = s.
Proof. reflexivity. Qed.

Lemma append_cons_l (c : ascii) (s t : string) :
  String c s +:+ t = String c (s +:+ t).
Proof. reflexivity. Qed.

(** A run of digits followed by a character that is not a digit can be
    read back in one way only. *)
Lemma digits_then_letter_inj (l1 l2 : list ascii) (c1 c2 : ascii) (r1 r2 : string) :
  Forall (fun c => isDigitChar c = true) l1 ->
  Forall (fun c => isDigitChar c = true) l2 ->
  isDigitChar c1 = false -> isDigitChar c2 = false ->
  string_of_list_ascii l1 +:+ String c1 r1 = string_of_list_ascii l2 +:+ String c2 r2 ->
  l1 = l2 /\ c1 = c2.
Proof.
  intros H1. revert l2. induction H1 as [|a l1 Ha H1 IH]; intros l2 H2 Hc1 Hc2 E.
  - destruct H2 as [|b l2 Hb H2]; cbn [string_of_list_ascii] in E;
      rewrite ?append_nil_l, ?append_cons_l in E.
    + now inversion E.
    + inversion E; subst. congruence.
  - destruct H2 as [|b l2 Hb H2]; cbn [string_of_list_ascii] in E;
      rewrite ?append_nil_l, ?append_cons_l in E.
    + inversion E; subst. congruence.
    + inversion E as [[Eab Erest]]. subst b.
      destruct (IH l2 H2 Hc1 Hc2 Erest) as [-> ->]. now split.
Qed.

Lemma renderBucket_shape (b : bucket) :
  bucketWf b ->
  renderBucket b =
    string_of_list_ascii (bucketDigits b) +:+ String (bucketLetter b) (bucketTail b)
  /\ Forall (fun c => isDigitChar c = true) (bucketDigits b)
  /\ isDigitChar (bucketLetter b) = false.
Proof.
  intros Hwf.
  destruct b as [|n|n|n]; cbn [renderBucket bucketDigits bucketLetter bucketTail bucketWf] in *.
  1: now repeat split.
  all: unfold integerToString, decimalOfNat;
    destruct (Z.ltb_spec n 0); [lia|];
    repeat split; apply Forall_rev, digitsLE_isDigit.
Qed.

Lemma renderBucket_inj (b1 b2 : bucket) :
  bucketWf b1 -> bucketWf b2 -> renderBucket b1 = renderBucket b2 -> b1 = b2.
Proof.
  intros W1 W2 E.
  destruct (renderBucket_shape b1 W1) as (E1 & D1 & L1).
  destruct (renderBucket_shape b2 W2) as (E2 & D2 & L2).
  rewrite E1, E2 in E.
  destruct (digits_then_letter_inj _ _ _ _ _ _ D1 D2 L1 L2 E) as [Hd Hl].
  assert (Hnum : forall n m, 0 <= n -> 0 <= m ->
            rev (digitsLE (digitFuel n) n) = rev (digitsLE (digitFuel m) m) -> n = m).
  { intros n m Hn Hm H. apply decimalOfNat_inj; [assumption..|].
    unfold decimalOfNat. now rewrite H. }
  destruct b1, b2; cbn [bucketLetter bucketDigits bucketWf] in *;
    try discriminate; try reflexivity; f_equal; apply Hnum; lia || assumption.
Qed.

(** The rendering of an integer has one character for each decimal digit
    and one more for the sign of a negative value. *)
Lemma integerToString_length (n : Z) :
  String.length (integerToString n) =
    (decimalDigits n + (if (n <? 0)%Z then 1 else 0))%nat.
Proof.
  unfold integerToString, decimalDigits.
  destruct (Z.ltb_spec n 0).
  - cbn [String.length]. rewrite Z.abs_neq by lia. lia.
  - rewrite Z.abs_eq by lia. lia.
Qed.

(** The test [String(n).length <= 10] in numbers. *)
Lemma numberToString_length_le_10 (n : Z) :
  (String.length (numberToString (Num n)) <= 10)%nat <-> - 10 ^ 9 < n < 10 ^ 10.
Proof.
  cbn [numberToString]. unfold integerToString.
  destruct (Z.ltb_spec n 0).
  - cbn [String.length].
    pose proof (decimalOfNat_length (- n) 9 ltac:(lia) ltac:(lia)). lia.
  - pose proof (decimalOfNat_length n 10 ltac:(lia) ltac:(lia)). lia.
Qed.

Lemma numeric_input_by_length (n : Z) :
  ((String.length (numberToString (Num n)) <= 10)%nat -> readAsSeconds n) /\
  ((10 < String.length (numberToString (Num n)))%nat -> readAsMilliseconds n).
Proof.
  unfold readAsSeconds, readAsMilliseconds, dateOfInput, tsMsOfInput.
  destruct (Nat.leb_spec (String.length (numberToString (Num n))) 10);
    split; intros; (lia || now split).
Qed.

(** *** Properties of the design document *)

(** C5 (as amended).  For a numeric input that is an integer of magnitude
    below 10^21 (where [String] prints the sign and every digit), both
    [formatRelativeTime] and [isWithinLastHours] choose the unit by the
    length of [String(n)], which is the number of decimal digits plus one
    for the minus sign of a negative value: a rendering of at most 10
    characters, that is [-10^9 < n < 10^10], is read as seconds since the
    epoch and a longer one as milliseconds.  So a value of at most 10
    decimal digits is read as seconds unless it is negative with exactly
    10 digits, a negative value of exactly 10 digits is read as
    milliseconds, and a value of more than 10 digits is read as
    milliseconds. *)
Theorem numeric_input_unit (n : Z) :
  Z.abs n < 10 ^ 21 ->
  String.length (numberToString (Num n)) =
    (decimalDigits n + (if (n <? 0)%Z then 1 else 0))%nat /\
  ((decimalDigits n <= 10)%nat <-> Z.abs n < 10 ^ 10) /\
  ((String.length (numberToString (Num n)) <= 10)%nat <-> - 10 ^ 9 < n < 10 ^ 10) /\
  ((String.length (numberToString (Num n)) <= 10)%nat -> readAsSeconds n) /\
  ((10 < String.length (numberToString (Num n)))%nat -> readAsMilliseconds n) /\
  ((decimalDigits n <= 10)%nat ->
   0 <= n \/ decimalDigits n <> 10%nat ->
   readAsSeconds n) /\
  (n < 0 -> decimalDigits n = 10%nat -> readAsMilliseconds n) /\
  ((10 < decimalDigits n)%nat -> readAsMilliseconds n).
Proof.
  intros _.
  pose proof (integerToString_length n) as Hlen.
  change (integerToString n) with (numberToString (Num n)) in Hlen.
  destruct (numeric_input_by_length n) as [Hsec Hms].
  split; [exact Hlen|].
  split; [apply decimalDigits_le_10|].
  split; [apply numberToString_length_le_10|].
  split; [exact Hsec|].
  split; [exact Hms|].
  rewrite Hlen in Hsec, Hms. revert Hsec Hms.
  destruct (Z.ltb_spec n 0) as [Hneg | Hpos]; intros Hsec Hms.
  - split; [|split].
    + intros Hd [Hn | Hne]; apply Hsec; lia.
    + intros _ Hd. apply Hms. lia.
    + intros Hd. apply Hms. lia.
  - split; [|split].
    + intros Hd _. apply Hsec. lia.
    + intros Hn. lia.
    + intros Hd. apply Hms. lia.
Qed.

(** C6.  [formatRelativeTime] is monotonic: when the instants of two
    inputs satisfy [t1 < t2 <= now], the earlier one is printed as a
    bucket that is not more recent than the bucket of the later one
    (units ordered now < minutes < hours < days, a larger count being
    older within a unit). *)
Theorem formatRelativeTime_monotonic (x1 x2 : timeInput) (t1 t2 : Z) :
  getTime (dateOfInput x1) = Num t1 ->
  getTime (dateOfInput x2) = Num t2 ->
  t1 < t2 <= now ->
  exists b1 b2,
    formatRelativeTime x1 = renderBucket b1 /\
    formatRelativeTime x2 = renderBucket b2 /\
    bucketWf b1 /\ bucketWf b2 /\
    notMoreRecent b1 b2.
Proof.
  intros H1 H2 Hlt.
  exists (bucketOfDiff (now - t1)), (bucketOfDiff (now - t2)).
  repeat split.
  - now apply formatRelativeTime_bucket.
  - now apply formatRelativeTime_bucket.
  - apply bucketOfDiff_wf.
  - apply bucketOfDiff_wf.
  - apply bucketOfDiff_mono; lia.
Qed.

(* =================================================================== *)
(** ** The finishing sequence                                          *)
(* =================================================================== *)

(** *** Deduplication *)

(** The items pushed so far do not influence the rest of the loop. *)
Lemma dedupeLoop_out (l : list Item) :
  forall seen out, dedupeLoop seen out l = out ++ dedupeLoop seen [] l.
Proof.
  induction l as [|x l IH]; intros seen out; cbn [dedupeLoop].
  - now rewrite app_nil_r.
  - destruct (String.eqb (urlKey x) "" || bool_decide (urlKey x ∈ seen)).
    + apply IH.
    + rewrite (IH _ (out ++ [x])), (IH _ ([] ++ [x])).
      now rewrite <- app_assoc.
Qed.

Lemma dedupeLoop_skip (seen : gset string) (x : Item) (l : list Item) :
  urlKey x = "" \/ urlKey x ∈ seen ->
  dedupeLoop seen [] (x :: l) = dedupeLoop seen [] l.
Proof.
  intros H. cbn [dedupeLoop].
  destruct H as [-> | H]; [reflexivity|].
  rewrite (bool_decide_eq_true_2 _ H). now rewrite orb_true_r.
Qed.

Lemma dedupeLoop_keep (seen : gset string) (x : Item) (l : list Item) :
  urlKey x <> "" -> urlKey x ∉ seen ->
  dedupeLoop seen [] (x :: l) = x :: dedupeLoop ({[ urlKey x ]} ∪ seen) [] l.
Proof.
  intros Hne Hns. cbn [dedupeLoop].
  apply String.eqb_neq in Hne. rewrite Hne.
  rewrite (bool_decide_eq_false_2 _ Hns). cbn [orb].
  now rewrite dedupeLoop_out.
Qed.

Lemma urlKey_cases (seen : gset string) (x : Item) :
  (urlKey x = "" \/ urlKey x ∈ seen) \/ (urlKey x <> "" /\ urlKey x ∉ seen).
Proof.
  destruct (decide (urlKey x = "")); [now left; left|].
  destruct (decide (urlKey x ∈ seen)); [now left; right | now right].
Qed.

(** What survives comes from the input, has a key, and that key had not
    been seen. *)
Lemma dedupeLoop_elem (l : list Item) :
  forall seen x, x ∈ dedupeLoop seen [] l ->
    x ∈ l /\ urlKey x <> "" /\ urlKey x ∉ seen.
Proof.
  induction l as [|y l IH]; intros seen x Hx.
  - cbn in Hx. now apply elem_of_nil in Hx.
  - destruct (urlKey_cases seen y) as [Hskip | [Hne Hns]].
    + rewrite dedupeLoop_skip in Hx by assumption.
      destruct (IH _ _ Hx) as (? & ? & ?). repeat split; auto.
      now apply elem_of_cons; right.
    + rewrite dedupeLoop_keep in Hx by assumption.
      apply elem_of_cons in Hx as [-> | Hx].
      * repeat split; auto. now apply elem_of_cons; left.
      * destruct (IH _ _ Hx) as (? & ? & Hn). repeat split; auto.
        -- now apply elem_of_cons; right.
        -- intros Hs. apply Hn, elem_of_union. now right.
Qed.

Lemma dedupeLoop_NoDup (l : list Item) :
  forall seen, NoDup (urlKey <$> dedupeLoop seen [] l).
Proof.
  induction l as [|y l IH]; intros seen.
  - cbn. constructor.
  - destruct (urlKey_cases seen y) as [Hskip | [Hne Hns]].
    + rewrite dedupeLoop_skip by assumption. apply IH.
    + rewrite dedupeLoop_keep by assumption. rewrite fmap_cons.
      apply NoDup_cons. split; [|apply IH].
      intros Hin. apply list_elem_of_fmap in Hin as (z & Hz & Hin).
      apply dedupeLoop_elem in Hin as (_ & _ & Hn).
      rewrite <- Hz in Hn. apply Hn, elem_of_union. left.
      now apply elem_of_singleton.
Qed.

(** Among the survivors, the ones with the key of [x] are [x] alone,
    when [x] is the first item of the input with that key. *)
Lemma dedupeLoop_first (l1 : list Item) :
  forall seen x l2,
    urlKey x <> "" -> urlKey x ∉ seen ->
    (forall y, y ∈ l1 -> urlKey y <> urlKey x) ->
    filter (fun y => urlKey y = urlKey x) (dedupeLoop seen [] (l1 ++ x :: l2)) = [x].
Proof.
  induction l1 as [|y l1 IH]; intros seen x l2 Hne Hns Hl1.
  - cbn [app]. rewrite dedupeLoop_keep by assumption.
    rewrite filter_cons_True by reflexivity. f_equal.
    apply elem_of_nil_inv. intros z Hz.
    apply list_elem_of_filter in Hz as [Hk Hz].
    apply dedupeLoop_elem in Hz as (_ & _ & Hn).
    apply Hn, elem_of_union. left. now apply elem_of_singleton.
  - cbn [app].
    assert (Hy : urlKey y <> urlKey x) by (apply Hl1; now apply elem_of_cons; left).
    assert (Hl1' : forall z, z ∈ l1 -> urlKey z <> urlKey x)
      by (intros z Hz; apply Hl1; now apply elem_of_cons; right).
    destruct (urlKey_cases seen y) as [Hskip | [Hney Hnsy]].
    + rewrite dedupeLoop_skip by assumption. now apply IH.
    + rewrite dedupeLoop_keep by assumption.
      rewrite filter_cons_False by assumption.
      apply IH; [assumption | | assumption].
      intros [Hs%elem_of_singleton | Hs]%elem_of_union; [congruence | contradiction].
Qed.

(** *** Sorting, filtering and annotation keep what matters *)

Lemma insertBy_Permutation {A : Type} (cmp : A -> A -> number) (x : A) (l : list A) :
  insertBy cmp x l ≡ₚ x :: l.
Proof.
  induction l as [|y l IH]; cbn [insertBy]; [reflexivity|].
  destruct (nlt (Num 0) (cmp x y)); [|reflexivity].
  rewrite IH. apply Permutation_swap.
Qed.

Lemma sortBy_Permutation {A : Type} (cmp : A -> A -> number) (l : list A) :
  sortBy cmp l ≡ₚ l.
Proof.
  induction l as [|x l IH]; cbn; [reflexivity|].
  rewrite insertBy_Permutation. now rewrite IH.
Qed.

Lemma applyTitleFilter_sublist (l : list Item) (q : string) :
  applyTitleFilter l q `sublist_of` l.
Proof.
  unfold applyTitleFilter.
  destruct (String.eqb q ""); [reflexivity|].
  destruct (String.eqb (toLowerCase (trim q)) ""); [reflexivity|].
  apply sublist_filter.
Qed.

Lemma addRelativeTime_fmap {B : Type} (f : Item -> B) (l : list Item) :
  (forall it, f (withRelativeTime it) = f it) ->
  f <$> addRelativeTime l = f <$> l.
Proof.
  intros Hf. unfold addRelativeTime.
  induction l as [|x l IH]; cbn; [reflexivity|].
  rewrite Hf. f_equal. exact IH.
Qed.

(** Any projection that ignores [relativeTime] and is injective on the
    deduplicated list stays so after the finishing sequence. *)
Lemma runPipeline_NoDup {B : Type} (f : Item -> B) (q : string) (l : list Item) :
  (forall it, f (withRelativeTime it) = f it) ->
  NoDup (f <$> dedupeByUrl l) ->
  NoDup (f <$> runPipeline q l).
Proof.
  intros Hf Hnd. unfold runPipeline.
  rewrite addRelativeTime_fmap by assumption.
  rewrite sortBy_Permutation.
  eapply sublist_NoDup; [exact Hnd|].
  apply fmap_sublist, applyTitleFilter_sublist.
Qed.

(** C3 (as amended).  After the finishing sequence no two returned items
    share a url, nor a url up to surrounding white space.  Deduplication
    compares trimmed urls and drops every item whose trimmed url is
    empty; for a trimmed url that is not empty, the survivors that carry
    it are exactly one item, the first one of the input that carries it. *)
Theorem finishing_sequence_unique_urls (l : list Item) (q : string) :
  NoDup (url <$> runPipeline q l) /\
  NoDup (urlKey <$> runPipeline q l) /\
  (forall x, x ∈ dedupeByUrl l -> x ∈ l /\ urlKey x <> "") /\
  (forall l1 x l2,
      l = l1 ++ x :: l2 ->
      urlKey x <> "" ->
      (forall y, y ∈ l1 -> urlKey y <> urlKey x) ->
      filter (fun y => urlKey y = urlKey x) (dedupeByUrl l) = [x]).
Proof.
  assert (Hkeys : NoDup (urlKey <$> runPipeline q l)).
  { apply runPipeline_NoDup; [reflexivity | apply dedupeLoop_NoDup]. }
  split; [|split; [exact Hkeys|split]].
  - change urlKey with (trim ∘ url) in Hkeys.
    rewrite list_fmap_compose in Hkeys. now apply NoDup_fmap_1 in Hkeys.
  - intros x Hx. apply dedupeLoop_elem in Hx as (? & ? & _). now split.
  - intros l1 x l2 -> Hne Hfirst.
    apply dedupeLoop_first; [assumption | apply not_elem_of_empty | assumption].
Qed.

(** *** The title filter *)

Lemma trim_empty_query : toLowerCase (trim "") = "".
Proof. reflexivity. Qed.

(** The filter is inactive on a query that is empty once trimmed, and
    otherwise keeps the items that match. *)
Lemma applyTitleFilter_spec (l : list Item) (q : string) :
  applyTitleFilter l q =
    if String.eqb (toLowerCase (trim q)) "" then l else filter (matchesQuery q) l.
Proof.
  unfold applyTitleFilter.
  destruct (String.eqb_spec q "") as [-> | Hq]; [reflexivity|].
  destruct (String.eqb (toLowerCase (trim q)) ""); reflexivity.
Qed.

Lemma dedupeLoop_unseen (k : string) (l : list Item) :
  forall seen,
    (forall y, y ∈ l -> urlKey y <> k) ->
    dedupeLoop ({[ k ]} ∪ seen) [] l = dedupeLoop seen [] l.
Proof.
  induction l as [|y l IH]; intros seen Hk; [reflexivity|].
  assert (Hy : urlKey y <> k) by (apply Hk; now apply elem_of_cons; left).
  assert (Hl : forall z, z ∈ l -> urlKey z <> k)
    by (intros z Hz; apply Hk; now apply elem_of_cons; right).
  destruct (urlKey_cases seen y) as [[He | Hs] | [Hne Hns]].
  - rewrite !dedupeLoop_skip by (now left). now apply IH.
  - rewrite (dedupeLoop_skip seen) by (now right).
    rewrite dedupeLoop_skip by (right; apply elem_of_union; now right).
    now apply IH.
  - rewrite (dedupeLoop_keep seen) by assumption.
    rewrite dedupeLoop_keep; [|assumption|].
    + f_equal.
      rewrite (assoc_L (∪)), (comm_L (∪) {[urlKey y]} {[k]}), <- (assoc_L (∪)).
      now apply IH.
    + intros [Hs%elem_of_singleton | Hs]%elem_of_union; [congruence | contradiction].
Qed.

(** Filtering commutes with the loop when items with one key agree on
    the test. *)
Lemma dedupeLoop_filter (P : Item -> Prop) `{!forall x, Decision (P x)}
      (l : list Item) :
  forall seen,
    (forall x y, x ∈ l -> y ∈ l -> urlKey x = urlKey y -> (P x <-> P y)) ->
    dedupeLoop seen [] (filter P l) = filter P (dedupeLoop seen [] l).
Proof.
  induction l as [|y l IH]; intros seen Hagree; [reflexivity|].
  assert (Hl : forall a b, a ∈ l -> b ∈ l -> urlKey a = urlKey b -> (P a <-> P b)).
  { intros a b Ha Hb. apply Hagree; apply elem_of_cons; now right. }
  destruct (urlKey_cases seen y) as [Hskip | [Hne Hns]].
  - rewrite (dedupeLoop_skip seen y l) by assumption.
    rewrite filter_cons. destruct (decide (P y)).
    + rewrite dedupeLoop_skip by assumption. now apply IH.
    + now apply IH.
  - rewrite (dedupeLoop_keep seen y l) by assumption.
    rewrite !filter_cons. destruct (decide (P y)) as [Hy | Hy].
    + rewrite dedupeLoop_keep by assumption. f_equal. now apply IH.
    + rewrite <- IH by assumption.
      symmetry. apply dedupeLoop_unseen.
      intros z Hz Hk. apply list_elem_of_filter in Hz as [HPz Hz].
      apply Hy. apply (Hagree z y); [apply elem_of_cons; now right
                                    | apply elem_of_cons; now left
                                    | assumption | assumption].
Qed.

(** A larger set of seen keys only removes survivors. *)
Lemma dedupeLoop_seen_mono (l : list Item) :
  forall (seen seen' : gset string) x,
    seen ⊆ seen' -> x ∈ dedupeLoop seen' [] l -> x ∈ dedupeLoop seen [] l.
Proof.
  induction l as [|y l IH]; intros seen seen' x Hsub Hx; [exact Hx|].
  destruct (urlKey_cases seen' y) as [Hskip' | [Hne Hns']].
  - rewrite dedupeLoop_skip in Hx by assumption.
    destruct (urlKey_cases seen y) as [Hskip | [Hne Hns]].
    + rewrite dedupeLoop_skip by assumption. now apply (IH seen seen').
    + rewrite dedupeLoop_keep by assumption. apply elem_of_cons; right.
      apply (IH _ seen'); [|assumption].
      destruct Hskip' as [He | Hs']; [contradiction|].
      intros k [Hk%elem_of_singleton | Hk]%elem_of_union; [now subst | now apply Hsub].
  - rewrite dedupeLoop_keep in Hx by assumption.
    assert (Hns : urlKey y ∉ seen) by (intros Hs; now apply Hns', Hsub).
    rewrite dedupeLoop_keep by assumption.
    apply elem_of_cons in Hx as [-> | Hx]; apply elem_of_cons; [now left | right].
    apply (IH _ ({[urlKey y]} ∪ seen')); [|assumption].
    intros k [Hk | Hk]%elem_of_union; apply elem_of_union; [now left | right; now apply Hsub].
Qed.

Lemma dedupeLoop_filter_incl (P : Item -> Prop) `{!forall x, Decision (P x)}
      (l : list Item) :
  forall seen x,
    x ∈ filter P (dedupeLoop seen [] l) -> x ∈ dedupeLoop seen [] (filter P l).
Proof.
  induction l as [|y l IH]; intros seen x Hx; [exact Hx|].
  destruct (urlKey_cases seen y) as [Hskip | [Hne Hns]].
  - rewrite (dedupeLoop_skip seen y l) in Hx by assumption.
    rewrite filter_cons. destruct (decide (P y)).
    + rewrite dedupeLoop_skip by assumption. now apply IH.
    + now apply IH.
  - rewrite (dedupeLoop_keep seen y l) in Hx by assumption.
    rewrite filter_cons in Hx. rewrite filter_cons.
    destruct (decide (P y)) as [Hy | Hy].
    + rewrite dedupeLoop_keep by assumption.
      apply elem_of_cons in Hx as [-> | Hx]; apply elem_of_cons; [now left | right].
      now apply IH.
    + apply IH in Hx. eapply dedupeLoop_seen_mono; [|exact Hx].
      intros k Hk. apply elem_of_union. now right.
Qed.

(** C4 (as amended).  The title filter is idempotent.  Deduplicating
    first and filtering afterwards keeps only items that filtering first
    and deduplicating afterwards keeps too; the two orders give the same
    list whenever items with the same trimmed url agree on matching the
    query (for instance because they carry the same title). *)
Theorem title_filter_idempotent_and_dedupe (l : list Item) (q : string) :
  applyTitleFilter (applyTitleFilter l q) q = applyTitleFilter l q /\
  (forall x, x ∈ applyTitleFilter (dedupeByUrl l) q ->
             x ∈ dedupeByUrl (applyTitleFilter l q)) /\
  ((forall x y, x ∈ l -> y ∈ l -> urlKey x = urlKey y ->
                (matchesQuery q x <-> matchesQuery q y)) ->
   dedupeByUrl (applyTitleFilter l q) = applyTitleFilter (dedupeByUrl l) q).
Proof.
  rewrite !applyTitleFilter_spec.
  destruct (String.eqb (toLowerCase (trim q)) ""); [now repeat split|].
  split; [|split].
  - apply list_filter_filter_l. intros x Hx. exact Hx.
  - intros x. apply dedupeLoop_filter_incl.
  - intros Hagree. now apply dedupeLoop_filter.
Qed.

(** C10.  The title filter gives the same result for a query as for its
    trimmed, lower-cased form, and more generally for any two queries
    with the same trimmed, lower-cased form: white space around the query
    never matters.  When that form is not empty, the items kept are those
    whose lower-cased title contains it. *)
Theorem title_filter_normalizes_query (l : list Item) (q : string) :
  applyTitleFilter l q = applyTitleFilter l (toLowerCase (trim q)) /\
  (forall q', toLowerCase (trim q') = toLowerCase (trim q) ->
              applyTitleFilter l q' = applyTitleFilter l q) /\
  applyTitleFilter l q =
    (if String.eqb (toLowerCase (trim q)) "" then l
     else filter (fun it => includes (toLowerCase (title it))
                                     (toLowerCase (trim q)) = true) l).
Proof.
  assert (Hsame : forall q', toLowerCase (trim q') = toLowerCase (trim q) ->
                             applyTitleFilter l q' = applyTitleFilter l q).
  { pose (F := fun qn : string =>
                 if String.eqb qn "" then l
                 else filter (fun it => includes (toLowerCase (title it)) qn = true) l).
    assert (HF : forall a, applyTitleFilter l a = F (toLowerCase (trim a)))
      by (intros a; apply applyTitleFilter_spec).
    intros q' E. rewrite !HF. now f_equal. }
  split; [|split].
  - symmetry. apply Hsame, normalizedQuery_idem.
  - exact Hsame.
  - apply applyTitleFilter_spec.
Qed.

(* =================================================================== *)
(** ** Mock mode and fallback                                          *)
(* =================================================================== *)

Lemma runPipeline_nil (q : string) : runPipeline q [] = [].
Proof.
  unfold runPipeline, dedupeByUrl. cbn [dedupeLoop].
  rewrite applyTitleFilter_spec.
  destruct (String.eqb (toLowerCase (trim q)) ""); reflexivity.
Qed.

(** Every item of the finishing sequence is an input item with its
    relative time attached. *)
Lemma runPipeline_elem (q : string) (l : list Item) (it : Item) :
  it ∈ runPipeline q l -> exists m, m ∈ l /\ it = withRelativeTime m.
Proof.
  unfold runPipeline, addRelativeTime. intros Hit.
  change (map withRelativeTime) with (fmap (M:=list) withRelativeTime) in Hit.
  apply list_elem_of_fmap in Hit as (m & -> & Hm).
  exists m. split; [|reflexivity].
  rewrite sortBy_Permutation in Hm.
  eapply elem_of_sublist in Hm; [|apply applyTitleFilter_sublist].
  now apply dedupeLoop_elem in Hm as (? & _).
Qed.

(** The mock branch: no request is made and the call resolves. *)
Lemma fetchDevelopments_mockOn (q : string) (log : list request) :
  envMock || urlMockEnabled = true ->
  fetchDevelopments q log =
    (Ok {| items := prepareMock urlMockEnabled q; usedMock := true |}, log).
Proof.
  intros Hon. unfold fetchDevelopments, tryCatch. now rewrite Hon.
Qed.

(** The live branch, by the outcome of the provider adapter. *)
Lemma fetchDevelopments_live (q : string) (log log' : list request)
      (o : outcome (list Item)) :
  envMock || urlMockEnabled = false ->
  fetchFromProvider provider log = (o, log') ->
  fetchDevelopments q log =
    (Ok (match o with
         | Throw _ => {| items := prepareMock urlMockEnabled q; usedMock := true |}
         | Ok fetched =>
             if (length fetched =? 0)%nat
             then {| items := prepareMock urlMockEnabled q; usedMock := true |}
             else if (length (filterWithinHours fetched HOURS) =? 0)%nat
                  then {| items := prepareMock urlMockEnabled q; usedMock := true |}
                  else {| items := runPipeline q (filterWithinHours fetched HOURS);
                          usedMock := false |}
         end), log').
Proof.
  intros Hoff Hfetch. unfold fetchDevelopments, tryCatch. rewrite Hoff.
  unfold mbind, M_bind. rewrite Hfetch.
  destruct o as [fetched | e]; [|reflexivity].
  destruct (length fetched =? 0)%nat; [reflexivity|].
  destruct (length (filterWithinHours fetched HOURS) =? 0)%nat; reflexivity.
Qed.

(** Whatever the provider does, the call resolves. *)
Lemma fetchDevelopments_resolves (q : string) (log : list request) :
  exists r log', fetchDevelopments q log = (Ok r, log').
Proof.
  destruct (envMock || urlMockEnabled) eqn:Hon.
  - eexists; eexists. now apply fetchDevelopments_mockOn.
  - destruct (fetchFromProvider provider log) as [o log'] eqn:Hfetch.
    eexists; eexists. now apply (fetchDevelopments_live q log log' o).
Qed.

(** The runtime override is the [mock] query parameter with one of the
    values 1, true, on, yes (in any case), or a hash that contains "mock"
    (in any case), or the global flag. *)
Lemma urlMockEnabled_iff :
  urlMockEnabled = true <->
    (exists p, mockParam window = Some p /\
               toLowerCase p ∈ ["1"; "true"; "on"; "yes"]) \/
    includes (toLowerCase (location_hash window)) "mock" = true \/
    USE_MOCK window = true.
Proof.
  unfold urlMockEnabled. rewrite !orb_true_iff.
  assert (Hq : (match mockParam window with
                | Some p => negb (String.eqb p "") &&
                            bool_decide (toLowerCase p ∈ ["1"; "true"; "on"; "yes"])
                | None => false
                end) = true <->
               exists p, mockParam window = Some p /\
                         toLowerCase p ∈ ["1"; "true"; "on"; "yes"]).
  { destruct (mockParam window) as [p|].
    - rewrite andb_true_iff, bool_decide_eq_true. split.
      + intros [_ Hin]. now exists p.
      + intros (p' & Hp & Hin). inversion Hp; subst p'. split; [|exact Hin].
        destruct (String.eqb_spec p "") as [-> | _]; [|reflexivity].
        vm_compute in Hin.
        repeat (apply elem_of_cons in Hin as [Hin | Hin]; [discriminate|]).
        now apply elem_of_nil in Hin.
    - split; [discriminate | intros (p & Hp & _); discriminate]. }
  rewrite Hq. clear. intuition.
Qed.

(** The ways the HN adapter fails after it has made its request: no
    connection, a status that is not a success, a body that is not JSON;
    and a body without [hits] gives no item. *)
Lemma fetchFromHN_failures (log : list request) :
  (forall msg, network hnRequest = FetchReject msg ->
     fetchFromHN log = (Throw (TypeErrorObj msg), log ++ [hnRequest])) /\
  (forall res, network hnRequest = FetchResolve res -> res_ok res = false ->
     fetchFromHN log =
       (Throw (ErrorObj ("HN fetch failed: " +:+ numberToString (Num (res_status res)))),
        log ++ [hnRequest])) /\
  (forall res msg, network hnRequest = FetchResolve res -> res_ok res = true ->
     res_json res = JsonReject msg ->
     fetchFromHN log = (Throw (SyntaxErrorObj msg), log ++ [hnRequest])) /\
  (forall res articles, network hnRequest = FetchResolve res -> res_ok res = true ->
     res_json res = JsonObject None articles ->
     fetchFromHN log = (Ok [], log ++ [hnRequest])).
Proof.
  unfold fetchFromHN, mbind, M_bind, fetch, throw, lift, jsonHits.
  repeat split.
  - intros msg ->. reflexivity.
  - intros res -> ->. reflexivity.
  - intros res msg -> -> ->. reflexivity.
  - intros res articles -> -> ->. reflexivity.
Qed.

(** C1.  With mock mode off, if the provider adapter throws (whatever
    the error), or returns no item, or returns items of which none is
    inside the 48-hour window, [fetchDevelopments] resolves: its result
    is the mock set put through the window filter and the finishing
    sequence, with [usedMock = true], and the error is not passed on.
    Every returned item is a fixture item inside the window with its
    relative time attached. *)
Theorem live_failure_falls_back_to_mock
        (q : string) (log log' : list request) (o : outcome (list Item)) :
  envMock = false ->
  urlMockEnabled = false ->
  fetchFromProvider provider log = (o, log') ->
  ((exists e, o = Throw e) \/
   o = Ok [] \/
   (exists fetched, o = Ok fetched /\ filterWithinHours fetched HOURS = [])) ->
  exists mockItems,
    fetchDevelopments q log = (Ok {| items := mockItems; usedMock := true |}, log') /\
    mockItems = runPipeline q (filterWithinHours buildMockData HOURS) /\
    (forall it, it ∈ mockItems ->
       exists m, m ∈ buildMockData /\
                 isWithinLastHours (InString (publishedAt m)) HOURS = true /\
                 it = withRelativeTime m).
Proof.
  intros Henv Hforce Hfetch Hcause.
  exists (runPipeline q (filterWithinHours buildMockData HOURS)).
  assert (Hprep : prepareMock urlMockEnabled q =
                  runPipeline q (filterWithinHours buildMockData HOURS)).
  { rewrite Hforce. reflexivity. }
  split; [|split; [reflexivity|]].
  - rewrite (fetchDevelopments_live q log log' o); [|now rewrite Henv, Hforce | assumption].
    rewrite Hprep.
    destruct Hcause as [[e ->] | [-> | (fetched & -> & Hnone)]]; [reflexivity..|].
    rewrite Hnone. cbn [length Nat.eqb].
    destruct (length fetched =? 0)%nat; reflexivity.
  - intros it Hit. apply runPipeline_elem in Hit as (m & Hm & ->).
    apply list_elem_of_filter in Hm as [Hwin Hm]. now exists m.
Qed.

(** An item whose date parses to an instant before the start of the
    window is outside the window. *)
Lemma isWithinLastHours_older (s : string) (t : Z) :
  Date_parse s = Num t ->
  t < now - 48 * (60 * 60 * 1000) ->
  isWithinLastHours (InString s) HOURS = false.
Proof.
  intros Hs Ht. unfold isWithinLastHours, tsMsOfInput, newDateOfString.
  rewrite Hs. unfold nowMinusHours, HOURS, hoursOrZero, newDate, TimeClip.
  cbn [truthyNumber Z.eqb negb nmul nsub getTime].
  destruct (Z.abs t <=? maxTimeValue); [|reflexivity].
  destruct (Z.abs (now - 48 * (60 * 60 * 1000)) <=? maxTimeValue);
    cbn [isNaN nge]; [|reflexivity].
  apply Z.leb_gt. lia.
Qed.

(** C9.  When mock mode is enabled by the configuration flag only and
    every fixture item is older than 48 hours, [fetchDevelopments]
    resolves with no item and [usedMock = true]: nothing bypasses the
    window and the empty result is not an error. *)
Theorem configured_mock_stale_fixture (q : string) (log : list request) :
  envMock = true ->
  urlMockEnabled = false ->
  (forall it, it ∈ buildMockData ->
     exists t, Date_parse (publishedAt it) = Num t /\
               t < now - 48 * (60 * 60 * 1000)) ->
  fetchDevelopments q log = (Ok {| items := []; usedMock := true |}, log).
Proof.
  intros Henv Hforce Hold.
  rewrite fetchDevelopments_mockOn by (now rewrite Henv).
  unfold prepareMock. rewrite Hforce. cbn [andb].
  assert (Hnone : filterWithinHours buildMockData HOURS = []).
  { apply elem_of_nil_inv. intros it Hit.
    apply list_elem_of_filter in Hit as [Hwin Hit].
    destruct (Hold it Hit) as (t & Hparse & Hlt).
    rewrite (isWithinLastHours_older _ t Hparse Hlt) in Hwin. discriminate. }
  rewrite Hnone. now rewrite runPipeline_nil.
Qed.

(* =================================================================== *)
(** ** Provider adapters                                               *)
(* =================================================================== *)

Lemma toISOString_throws (d : Date) (e : jsError) :
  toISOString d = Throw e -> e = RangeErrorObj "Invalid time value".
Proof.
  unfold toISOString. destruct (getTime d); intros H; now inversion H.
Qed.

Lemma normalizeArticle_throws (fallback : string) (idx : nat) (a : rawArticle)
      (e : jsError) :
  normalizeArticle fallback idx a = Throw e -> e = RangeErrorObj "Invalid time value".
Proof.
  unfold normalizeArticle.
  destruct (truthyString (art_publishedAt a)); cbn; [|discriminate].
  destruct (toISOString _) eqn:E; cbn; [discriminate|].
  intros H; inversion H; subst. now apply toISOString_throws in E.
Qed.

(** Normalization of an article list fails only on a date that cannot be
    printed. *)
Lemma mapArticles_throws (fallback : string) (l : list rawArticle) :
  forall idx e,
    mapArticles fallback idx l = Throw e -> e = RangeErrorObj "Invalid time value".
Proof.
  induction l as [|a l IH]; intros idx e; cbn [mapArticles]; [discriminate|].
  destruct (normalizeArticle fallback idx a) eqn:Ea; cbn.
  - destruct (mapArticles fallback (S idx) l) eqn:El; cbn; [discriminate|].
    intros H; inversion H; subst. now apply IH in El.
  - intros H; inversion H; subst. now apply normalizeArticle_throws in Ea.
Qed.

(** With the key present, whatever makes the NewsAPI adapter fail is
    not the missing-key error. *)
Lemma fetchFromNewsAPI_failure (log log' : list request) (e : jsError) :
  truthyString (REACT_APP_NEWSAPI_KEY env) = true ->
  fetchFromNewsAPI log = (Throw e, log') ->
  e <> ErrorObj "Missing REACT_APP_NEWSAPI_KEY for NEWSAPI provider".
Proof.
  intros Hkey. unfold fetchFromNewsAPI. rewrite Hkey. cbn [negb].
  unfold mbind, M_bind, lift, fetch, throw.
  destruct (toISOString (nowMinusHours HOURS)) as [fromIso | e0] eqn:Eiso.
  2: { intros H; inversion H; subst.
       apply toISOString_throws in Eiso. now rewrite Eiso. }
  destruct (network _) as [msg | res]; [intros H; now inversion H|].
  destruct (res_ok res); cbn [negb]; [|intros H; now inversion H].
  unfold jsonArticles.
  destruct (res_json res) as [msg | | hits articles];
    try (intros H; now inversion H).
  unfold normalizeFromNewsAPI.
  destruct (mapArticles "newsapi" 0 (default [] articles)) eqn:Em; cbn;
    intros H; inversion H; subst.
  apply mapArticles_throws in Em. now rewrite Em.
Qed.

Lemma fetchFromGNews_failure (log log' : list request) (e : jsError) :
  truthyString (REACT_APP_GNEWS_KEY env) = true ->
  fetchFromGNews log = (Throw e, log') ->
  e <> ErrorObj "Missing REACT_APP_GNEWS_KEY for GNEWS provider".
Proof.
  intros Hkey. unfold fetchFromGNews. rewrite Hkey. cbn [negb].
  unfold mbind, M_bind, lift, fetch, throw.
  destruct (toISOString (nowMinusHours HOURS)) as [fromIso | e0] eqn:Eiso.
  2: { intros H; inversion H; subst.
       apply toISOString_throws in Eiso. now rewrite Eiso. }
  destruct (network _) as [msg | res]; [intros H; now inversion H|].
  destruct (res_ok res); cbn [negb]; [|intros H; now inversion H].
  unfold jsonArticles.
  destruct (res_json res) as [msg | | hits articles];
    try (intros H; now inversion H).
  unfold normalizeFromGNews.
  destruct (mapArticles "gnews" 0 (default [] articles)) eqn:Em; cbn;
    intros H; inversion H; subst.
  apply mapArticles_throws in Em. now rewrite Em.
Qed.

(** C7.  For NEWSAPI and GNEWS, when the key is absent (undefined or
    empty) the adapter throws its missing-key error and the log of
    requests is unchanged: the error comes before any network attempt.
    When the key is present, no failure of the adapter (no connection,
    HTTP status, body that does not parse, date that does not print) is
    that error, so the two kinds can be told apart. *)
Theorem missing_key_is_distinct_configuration_error (log : list request) :
  (truthyString (REACT_APP_NEWSAPI_KEY env) = false ->
   fetchFromProvider "NEWSAPI" log =
     (Throw (ErrorObj "Missing REACT_APP_NEWSAPI_KEY for NEWSAPI provider"), log)) /\
  (truthyString (REACT_APP_GNEWS_KEY env) = false ->
   fetchFromProvider "GNEWS" log =
     (Throw (ErrorObj "Missing REACT_APP_GNEWS_KEY for GNEWS provider"), log)) /\
  (forall e log',
     truthyString (REACT_APP_NEWSAPI_KEY env) = true ->
     fetchFromProvider "NEWSAPI" log = (Throw e, log') ->
     e <> ErrorObj "Missing REACT_APP_NEWSAPI_KEY for NEWSAPI provider") /\
  (forall e log',
     truthyString (REACT_APP_GNEWS_KEY env) = true ->
     fetchFromProvider "GNEWS" log = (Throw e, log') ->
     e <> ErrorObj "Missing REACT_APP_GNEWS_KEY for GNEWS provider").
Proof.
  unfold fetchFromProvider. cbn [String.eqb Ascii.eqb Bool.eqb].
  repeat split.
  - intros Hkey. unfold fetchFromNewsAPI. now rewrite Hkey.
  - intros Hkey. unfold fetchFromGNews. now rewrite Hkey.
  - intros e log' Hkey. now apply fetchFromNewsAPI_failure.
  - intros e log' Hkey. now apply fetchFromGNews_failure.
Qed.

(* =================================================================== *)
(** ** Further properties of the date utilities                        *)
(* =================================================================== *)

Lemma numberToString_nonneg_length (n : Z) :
  0 <= n ->
  ((String.length (numberToString (Num n)) <=? 10)%nat = true <-> n < 10 ^ 10).
Proof.
  intros Hn. cbn [numberToString]. unfold integerToString.
  destruct (Z.ltb_spec n 0); [lia|].
  rewrite Nat.leb_le, <- (decimalOfNat_length n 10) by lia. lia.
Qed.

(** X1.  [toUnixSeconds] of a date with instant [t] is [t / 1000]; for a
    date between the epoch and 10^13 ms the date helpers read that number
    back as seconds, so the round trip gives the start of the second of
    [t], less than a second before [t]. *)
Theorem toUnixSeconds_roundtrip (d : Date) (t : Z) :
  getTime d = Num t ->
  0 <= t < 10 ^ 13 ->
  toUnixSeconds (InDate d) = Num (t / 1000) /\
  tsMsOfInput (InNumber (toUnixSeconds (InDate d))) = Num (t / 1000 * 1000) /\
  dateOfInput (InNumber (toUnixSeconds (InDate d))) = newDate (Num (t / 1000 * 1000)) /\
  t - 1000 < t / 1000 * 1000 <= t.
Proof.
  intros Hd Ht.
  assert (Hs : toUnixSeconds (InDate d) = Num (t / 1000)).
  { unfold toUnixSeconds. now rewrite Hd. }
  assert (Hq : 0 <= t / 1000 < 10 ^ 10).
  { split; [apply Z.div_pos; lia|].
    apply Z.div_lt_upper_bound; [lia|].
    replace (1000 * 10 ^ 10) with (10 ^ 13) by reflexivity. lia. }
  assert (Hlen : (String.length (numberToString (Num (t / 1000))) <=? 10)%nat = true).
  { apply numberToString_nonneg_length; lia. }
  rewrite Hs. unfold tsMsOfInput, dateOfInput. rewrite Hlen. cbn [nmul].
  repeat split.
  - pose proof (Z.mod_pos_bound t 1000 ltac:(lia)).
    pose proof (Z.div_mod t 1000 ltac:(lia)). lia.
  - pose proof (Z.mod_pos_bound t 1000 ltac:(lia)).
    pose proof (Z.div_mod t 1000 ltac:(lia)). lia.
Qed.

Lemma bucketOfDiff_closed_form (d : Z) :
  bucketOfDiff d =
    if d <? 60000 then BNow
    else if d <? 3600000 then BMinutes (d / 60000)
    else if d <? 86400000 then BHours (d / 3600000)
    else BDays (d / 86400000).
Proof.
  unfold bucketOfDiff.
  assert (Hm : d / 1000 / 60 = d / 60000) by (rewrite Z.div_div by lia; reflexivity).
  assert (Hh : d / 1000 / 60 / 60 = d / 3600000)
    by (rewrite !Z.div_div by lia; reflexivity).
  assert (Hd : d / 1000 / 60 / 60 / 24 = d / 86400000)
    by (rewrite !Z.div_div by lia; reflexivity).
  rewrite Hd, Hh, Hm.
  assert (Hs1 : d / 1000 < 60 <-> d < 60000).
  { split; intros H.
    - apply Z.nle_gt. intros Hc.
      assert (60 <= d / 1000) by (apply Z.div_le_lower_bound; lia). lia.
    - apply Z.div_lt_upper_bound; lia. }
  assert (Hs2 : d / 60000 < 60 <-> d < 3600000).
  { split; intros H.
    - apply Z.nle_gt. intros Hc.
      assert (60 <= d / 60000) by (apply Z.div_le_lower_bound; lia). lia.
    - apply Z.div_lt_upper_bound; lia. }
  assert (Hs3 : d / 3600000 < 24 <-> d < 86400000).
  { split; intros H.
    - apply Z.nle_gt. intros Hc.
      assert (24 <= d / 3600000) by (apply Z.div_le_lower_bound; lia). lia.
    - apply Z.div_lt_upper_bound; lia. }
  destruct (Z.ltb_spec d 0); [destruct (Z.ltb_spec d 60000); [reflexivity | lia]|].
  destruct (Z.ltb_spec (d / 1000) 60); destruct (Z.ltb_spec d 60000);
    try reflexivity; try lia.
  destruct (Z.ltb_spec (d / 60000) 60); destruct (Z.ltb_spec d 3600000);
    try reflexivity; try lia.
  destruct (Z.ltb_spec (d / 3600000) 24); destruct (Z.ltb_spec d 86400000);
    try reflexivity; lia.
Qed.

(** X2.  For an input with a valid instant [t], [formatRelativeTime]
    depends on the elapsed milliseconds [now - t] alone: "now" below one
    minute (future instants included), then the whole minutes below one
    hour, the whole hours below one day, and the whole days. *)
Theorem formatRelativeTime_closed_form (x : timeInput) (t : Z) :
  getTime (dateOfInput x) = Num t ->
  formatRelativeTime x =
    let diff := now - t in
    if diff <? 60000 then "now"
    else if diff <? 3600000 then integerToString (diff / 60000) +:+ "m ago"
    else if diff <? 86400000 then integerToString (diff / 3600000) +:+ "h ago"
    else integerToString (diff / 86400000) +:+ "d ago".
Proof.
  intros Ht. rewrite (formatRelativeTime_bucket x t Ht), bucketOfDiff_closed_form.
  cbv zeta.
  destruct (now - t <? 60000); [reflexivity|].
  destruct (now - t <? 3600000); [reflexivity|].
  destruct (now - t <? 86400000); reflexivity.
Qed.

Lemma renderBucket_not_NaN (b : bucket) : bucketWf b -> renderBucket b <> "NaNd ago".
Proof.
  intros Hwf E.
  destruct (renderBucket_shape b Hwf) as (Eb & Db & Lb).
  rewrite Eb in E.
  change "NaNd ago" with (string_of_list_ascii [] +:+ String "N"%char "aNd ago") in E.
  assert (Dn : Forall (fun c => isDigitChar c = true) []) by constructor.
  assert (Ln : isDigitChar "N"%char = false) by reflexivity.
  destruct (digits_then_letter_inj _ [] _ "N"%char _ "aNd ago" Db Dn Lb Ln E)
    as [_ Hl].
  destruct b; discriminate.
Qed.

(** X3.  [formatRelativeTime] answers "NaNd ago" exactly when the input
    has no valid instant (an invalid Date, NaN, a string that does not
    parse); it answers "now" exactly when the input has an instant less
    than one minute before the clock, or after it. *)
Theorem formatRelativeTime_edge_outputs (x : timeInput) :
  (formatRelativeTime x = "NaNd ago" <-> getTime (dateOfInput x) = NaN) /\
  (formatRelativeTime x = "now" <->
     exists t, getTime (dateOfInput x) = Num t /\ now - t < 60000).
Proof.
  destruct (getTime (dateOfInput x)) as [t|] eqn:Ht.
  - rewrite (formatRelativeTime_bucket x t Ht). split.
    + split; [|discriminate]. intros E.
      now apply renderBucket_not_NaN in E; [|apply bucketOfDiff_wf].
    + split.
      * intros E. exists t. split; [reflexivity|].
        apply (renderBucket_inj _ BNow) in E; [|apply bucketOfDiff_wf | exact I].
        rewrite bucketOfDiff_closed_form in E.
        destruct (Z.ltb_spec (now - t) 60000); [assumption|].
        destruct (now - t <? 3600000); [discriminate|].
        destruct (now - t <? 86400000); discriminate.
      * intros (t' & Et & Hlt). inversion Et; subst t'.
        rewrite bucketOfDiff_closed_form.
        destruct (Z.ltb_spec (now - t) 60000); [reflexivity | lia].
  - assert (E : formatRelativeTime x = "NaNd ago").
    { unfold formatRelativeTime. rewrite Ht. reflexivity. }
    rewrite E. split.
    + split; reflexivity.
    + split; [discriminate|]. intros (t & Et & _). discriminate.
Qed.

Lemma nowMinusHours_time (h : Z) :
  getTime (nowMinusHours (Num h)) = TimeClip (Num (now - h * (60 * 60 * 1000))).
Proof.
  unfold nowMinusHours, hoursOrZero, newDate. cbn [truthyNumber getTime].
  destruct (Z.eqb_spec h 0) as [-> | Hh]; reflexivity.
Qed.

(** X4.  The window grows with the number of hours: an input inside the
    last [h1] hours is inside the last [h2] hours for every [h2 >= h1]
    whose window start is a valid time value. *)
Theorem isWithinLastHours_monotone (x : timeInput) (h1 h2 : Z) :
  h1 <= h2 ->
  Z.abs (now - h2 * (60 * 60 * 1000)) <= maxTimeValue ->
  isWithinLastHours x (Num h1) = true ->
  isWithinLastHours x (Num h2) = true.
Proof.
  intros Hh Hvalid. unfold isWithinLastHours.
  rewrite !nowMinusHours_time. unfold TimeClip at 2.
  apply Z.leb_le in Hvalid. rewrite Hvalid.
  destruct (tsMsOfInput x) as [t|]; cbn [isNaN]; [|discriminate].
  unfold TimeClip.
  destruct (Z.abs (now - h1 * (60 * 60 * 1000)) <=? maxTimeValue);
    cbn [nge]; [|discriminate].
  rewrite !Z.leb_le. lia.
Qed.

(** X5.  A date string inside the 48-hour window is never shown as older
    than two days: its relative time is "now", minutes, hours, or one or
    two days. *)
Theorem within_window_at_most_two_days (s : string) :
  isWithinLastHours (InString s) HOURS = true ->
  exists b,
    formatRelativeTime (InString s) = renderBucket b /\
    bucketWf b /\
    (forall d, b = BDays d -> d <= 2).
Proof.
  unfold isWithinLastHours, HOURS. rewrite nowMinusHours_time.
  cbn [tsMsOfInput].
  destruct (getTime (newDateOfString s)) as [t|] eqn:Ht; cbn [isNaN]; [|discriminate].
  unfold TimeClip.
  destruct (Z.abs (now - 48 * (60 * 60 * 1000)) <=? maxTimeValue);
    cbn [nge]; [|discriminate].
  intros Hle. apply Z.leb_le in Hle.
  exists (bucketOfDiff (now - t)). split; [|split].
  - now apply formatRelativeTime_bucket.
  - apply bucketOfDiff_wf.
  - intros d. rewrite bucketOfDiff_closed_form.
    destruct (now - t <? 60000); [discriminate|].
    destruct (now - t <? 3600000); [discriminate|].
    destruct (now - t <? 86400000); [discriminate|].
    intros E. inversion E; subst d.
    apply Z.lt_succ_r. apply Z.div_lt_upper_bound; lia.
Qed.

(* =================================================================== *)
(** ** Further properties of the pipeline                              *)
(* =================================================================== *)

(** *** Requests *)

Lemma fetchFromHN_log (log : list request) :
  snd (fetchFromHN log) = log ++ [hnRequest].
Proof.
  unfold fetchFromHN, mbind, M_bind, fetch, throw, lift.
  destruct (network hnRequest) as [msg | res]; [reflexivity|].
  destruct (res_ok res); cbn [negb]; [|reflexivity].
  destruct (jsonHits res); [|reflexivity].
  destruct (normalizeFromHN a); reflexivity.
Qed.

Lemma fetchFromNewsAPI_log (log : list request) :
  snd (fetchFromNewsAPI log) = log \/
  exists r, snd (fetchFromNewsAPI log) = log ++ [r] /\
            endpoint r = "https://newsapi.org/v2/everything".
Proof.
  unfold fetchFromNewsAPI, mbind, M_bind, fetch, throw, lift.
  destruct (negb (truthyString (REACT_APP_NEWSAPI_KEY env))); [now left|].
  destruct (toISOString (nowMinusHours HOURS)) as [fromIso|]; [|now left].
  right. eexists. split.
  { destruct (network _) as [msg | res]; [reflexivity|].
    destruct (res_ok res); cbn [negb]; [|reflexivity].
    destruct (jsonArticles res); [|reflexivity].
    destruct (normalizeFromNewsAPI a); reflexivity. }
  reflexivity.
Qed.

Lemma fetchFromGNews_log (log : list request) :
  snd (fetchFromGNews log) = log \/
  exists r, snd (fetchFromGNews log) = log ++ [r] /\
            endpoint r = "https://gnews.io/api/v4/search".
Proof.
  unfold fetchFromGNews, mbind, M_bind, fetch, throw, lift.
  destruct (negb (truthyString (REACT_APP_GNEWS_KEY env))); [now left|].
  destruct (toISOString (nowMinusHours HOURS)) as [fromIso|]; [|now left].
  right. eexists. split.
  { destruct (network _) as [msg | res]; [reflexivity|].
    destruct (res_ok res); cbn [negb]; [|reflexivity].
    destruct (jsonArticles res); [|reflexivity].
    destruct (normalizeFromGNews a); reflexivity. }
  reflexivity.
Qed.

Lemma fetchFromProvider_log (p : string) (log : list request) :
  snd (fetchFromProvider p log) = log \/
  exists r, snd (fetchFromProvider p log) = log ++ [r] /\ knownEndpoint r.
Proof.
  unfold fetchFromProvider, knownEndpoint.
  assert (Hhn : snd (fetchFromHN log) = log \/
                exists r, snd (fetchFromHN log) = log ++ [r] /\
                  (endpoint r = "https://hn.algolia.com/api/v1/search_by_date" \/
                   endpoint r = "https://newsapi.org/v2/everything" \/
                   endpoint r = "https://gnews.io/api/v4/search")).
  { right. exists hnRequest. split; [apply fetchFromHN_log | now left]. }
  destruct (String.eqb p "HN"); [exact Hhn|].
  destruct (String.eqb p "NEWSAPI").
  { destruct (fetchFromNewsAPI_log log) as [H | (r & H & He)]; [now left|].
    right. exists r. split; [exact H | right; now left]. }
  destruct (String.eqb p "GNEWS"); [|exact Hhn].
  destruct (fetchFromGNews_log log) as [H | (r & H & He)]; [now left|].
  right. exists r. split; [exact H | right; now right].
Qed.

(** X6.  One invocation of [fetchDevelopments] makes no request at all in
    mock mode and at most one request otherwise, to one of the three
    provider endpoints: nothing is retried, whatever the network
    answers. *)
Theorem fetchDevelopments_requests (q : string) (log : list request) :
  (envMock || urlMockEnabled = true -> snd (fetchDevelopments q log) = log) /\
  (snd (fetchDevelopments q log) = log \/
   exists r, snd (fetchDevelopments q log) = log ++ [r] /\ knownEndpoint r).
Proof.
  destruct (envMock || urlMockEnabled) eqn:Hon.
  - rewrite (fetchDevelopments_mockOn q log Hon). split; [reflexivity | now left].
  - split; [discriminate|].
    destruct (fetchFromProvider provider log) as [o log'] eqn:Hfetch.
    rewrite (fetchDevelopments_live q log log' o Hon Hfetch). cbn [snd].
    pose proof (fetchFromProvider_log provider log) as Hlog.
    rewrite Hfetch in Hlog. exact Hlog.
Qed.

(** *** Shape of the result *)

(** The base list of [prepareMock]: the whole fixture in the bypass case,
    the windowed fixture otherwise. *)
Lemma prepareMock_cases (q : string) :
  exists base,
    prepareMock urlMockEnabled q = runPipeline q base /\
    ((urlMockEnabled = true /\ filterWithinHours buildMockData HOURS = [] /\
      base = buildMockData) \/
     base = filterWithinHours buildMockData HOURS).
Proof.
  unfold prepareMock.
  destruct urlMockEnabled; cbn [andb]; [|eexists; split; [reflexivity | now right]].
  destruct (filterWithinHours buildMockData HOURS) as [|x within] eqn:Hw; cbn.
  - exists buildMockData. split; [reflexivity | left; now repeat split].
  - exists (x :: within). split; [reflexivity | now right].
Qed.

Lemma length_eqb_0 {A : Type} (l : list A) : (length l =? 0)%nat = true <-> l = [].
Proof. destruct l; cbn; split; intros H; try reflexivity; discriminate. Qed.

(** Every result is the finishing sequence applied to a base list: the
    fixture (bypass), the windowed fixture, or the windowed live items. *)
Lemma fetchDevelopments_cases (q : string) (log : list request) :
  exists base used log',
    fetchDevelopments q log =
      (Ok {| items := runPipeline q base; usedMock := used |}, log') /\
    ((used = true /\ urlMockEnabled = true /\
      filterWithinHours buildMockData HOURS = [] /\ base = buildMockData) \/
     (used = true /\ base = filterWithinHours buildMockData HOURS) \/
     (used = false /\ envMock || urlMockEnabled = false /\
      exists fetched,
        fetchFromProvider provider log = (Ok fetched, log') /\
        base = filterWithinHours fetched HOURS /\ base <> [])).
Proof.
  destruct (prepareMock_cases q) as (mbase & Hprep & Hmock).
  assert (Hm : (true = true /\ urlMockEnabled = true /\
                filterWithinHours buildMockData HOURS = [] /\ mbase = buildMockData) \/
               (true = true /\ mbase = filterWithinHours buildMockData HOURS) \/
               (true = false /\ envMock || urlMockEnabled = false /\
                exists fetched,
                  fetchFromProvider provider log = (Ok fetched, log) /\
                  mbase = filterWithinHours fetched HOURS /\ mbase <> [])).
  { destruct Hmock as [(? & ? & ?) | ?]; [left | right; left]; now repeat split. }
  destruct (envMock || urlMockEnabled) eqn:Hon.
  - exists mbase, true, log. rewrite (fetchDevelopments_mockOn q log Hon), Hprep.
    split; [reflexivity | exact Hm].
  - destruct (fetchFromProvider provider log) as [o log'] eqn:Hfetch.
    rewrite (fetchDevelopments_live q log log' o Hon Hfetch), Hprep.
    assert (Hm' : (true = true /\ urlMockEnabled = true /\
                   filterWithinHours buildMockData HOURS = [] /\
                   mbase = buildMockData) \/
                  (true = true /\ mbase = filterWithinHours buildMockData HOURS) \/
                  (true = false /\ false = false /\
                   exists fetched,
                     (o, log') = (Ok fetched, log') /\
                     mbase = filterWithinHours fetched HOURS /\ mbase <> [])).
    { destruct Hmock as [(? & ? & ?) | ?]; [left | right; left]; now repeat split. }
    destruct o as [fetched | e]; [|exists mbase, true, log'; now split].
    destruct (length fetched =? 0)%nat; [exists mbase, true, log'; now split|].
    destruct (length (filterWithinHours fetched HOURS) =? 0)%nat eqn:Hlen;
      [exists mbase, true, log'; now split|].
    exists (filterWithinHours fetched HOURS), false, log'.
    split; [reflexivity|]. right; right. repeat split.
    exists fetched. repeat split.
    intros Hnil. apply length_eqb_0 in Hnil. congruence.
Qed.

(** Membership in the result of the finishing sequence. *)
Lemma runPipeline_elem_filter (q : string) (l : list Item) (it : Item) :
  it ∈ runPipeline q l <->
  exists m, m ∈ applyTitleFilter (dedupeByUrl l) q /\ it = withRelativeTime m.
Proof.
  unfold runPipeline, addRelativeTime.
  change (map withRelativeTime) with (fmap (M:=list) withRelativeTime).
  rewrite list_elem_of_fmap. split; intros (m & H1 & H2).
  - exists m. rewrite sortBy_Permutation in H2. now split.
  - exists m. rewrite sortBy_Permutation. now split.
Qed.

(** X7.  Whatever the configuration and the network, [fetchDevelopments]
    resolves, and in its result the urls are pairwise distinct and not
    blank, every item carries the relative time of its own [publishedAt],
    and every item matches the query (when the query is not blank). *)
Theorem fetchDevelopments_result_invariants (q : string) (log : list request) :
  exists r log',
    fetchDevelopments q log = (Ok r, log') /\
    NoDup (url <$> items r) /\
    (forall it, it ∈ items r ->
       relativeTime it = Some (formatRelativeTime (InString (publishedAt it))) /\
       urlKey it <> "" /\
       (toLowerCase (trim q) = "" \/ matchesQuery q it)).
Proof.
  destruct (fetchDevelopments_cases q log) as (base & used & log' & Hres & _).
  eexists; eexists. split; [exact Hres|]. cbn [items]. split.
  - assert (Hk : NoDup (urlKey <$> runPipeline q base))
      by (apply runPipeline_NoDup; [reflexivity | apply dedupeLoop_NoDup]).
    change urlKey with (trim ∘ url) in Hk.
    rewrite list_fmap_compose in Hk. now apply NoDup_fmap_1 in Hk.
  - intros it Hit. apply runPipeline_elem_filter in Hit as (m & Hm & ->).
    split; [reflexivity|]. split.
    + eapply elem_of_sublist in Hm; [|apply applyTitleFilter_sublist].
      now apply dedupeLoop_elem in Hm as (_ & Hne & _).
    + rewrite applyTitleFilter_spec in Hm.
      destruct (String.eqb_spec (toLowerCase (trim q)) "") as [E | _]; [now left|].
      right. apply list_elem_of_filter in Hm as [Hmatch _]. exact Hmatch.
Qed.

(** *** Order of the result *)

Lemma byPublishedDesc_valid (a b : Item) :
  getTime (newDateOfString (publishedAt a)) <> NaN ->
  getTime (newDateOfString (publishedAt b)) <> NaN ->
  byPublishedDesc a b = Num (publishedInstant b - publishedInstant a).
Proof.
  unfold byPublishedDesc, publishedInstant. intros Ha Hb.
  destruct (getTime (newDateOfString (publishedAt a))); [|contradiction].
  destruct (getTime (newDateOfString (publishedAt b))); [|contradiction].
  reflexivity.
Qed.

Lemma insertBy_sorted (x : Item) (l : list Item) :
  getTime (newDateOfString (publishedAt x)) <> NaN ->
  Forall (fun y => getTime (newDateOfString (publishedAt y)) <> NaN) l ->
  StronglySorted newestFirst l ->
  StronglySorted newestFirst (insertBy byPublishedDesc x l).
Proof.
  intros Hx Hl Hs. induction Hs as [|y l Hs IH Hy]; cbn [insertBy].
  - constructor; constructor.
  - apply Forall_cons in Hl as [Hvy Hl].
    rewrite (byPublishedDesc_valid x y Hx Hvy). cbn [nlt].
    destruct (Z.ltb_spec 0 (publishedInstant y - publishedInstant x)) as [Hlt | Hge].
    + constructor; [now apply IH|].
      rewrite (insertBy_Permutation byPublishedDesc x l).
      constructor; [unfold newestFirst; lia | exact Hy].
    + constructor; [now constructor|].
      constructor; [unfold newestFirst; lia|].
      eapply Forall_impl; [exact Hy|].
      intros z Hz. unfold newestFirst in *. lia.
Qed.

Lemma sortBy_sorted (l : list Item) :
  Forall (fun y => getTime (newDateOfString (publishedAt y)) <> NaN) l ->
  StronglySorted newestFirst (sortBy byPublishedDesc l).
Proof.
  induction 1 as [|x l Hx Hl IH]; cbn; [constructor|].
  apply insertBy_sorted; [assumption | | assumption].
  fold (sortBy byPublishedDesc l). now rewrite sortBy_Permutation.
Qed.

Lemma addRelativeTime_sorted (l : list Item) :
  StronglySorted newestFirst l -> StronglySorted newestFirst (addRelativeTime l).
Proof.
  unfold addRelativeTime.
  induction 1 as [|x l Hs IH Hx]; cbn [map]; constructor; [assumption|].
  clear Hs IH. induction Hx as [|y l Hy Hx IH]; cbn [map]; constructor; assumption.
Qed.

(** X8.  When every item has a [publishedAt] that parses, the finishing
    sequence returns the items newest first. *)
Theorem runPipeline_newest_first (q : string) (l : list Item) :
  (forall it, it ∈ l -> getTime (newDateOfString (publishedAt it)) <> NaN) ->
  StronglySorted newestFirst (runPipeline q l).
Proof.
  intros Hvalid. unfold runPipeline.
  apply addRelativeTime_sorted, sortBy_sorted.
  apply Forall_forall. intros it Hit. apply Hvalid.
  eapply elem_of_sublist in Hit; [|apply applyTitleFilter_sublist].
  now apply dedupeLoop_elem in Hit as (? & _).
Qed.

Lemma isWithinLastHours_valid (s : string) (hours : number) :
  isWithinLastHours (InString s) hours = true ->
  getTime (newDateOfString s) <> NaN.
Proof.
  unfold isWithinLastHours. cbn [tsMsOfInput].
  destruct (getTime (newDateOfString s)); [discriminate | cbn; discriminate].
Qed.

(** X9.  Except in the bypass case (mock forced by the runtime override
    and no fixture item inside the window), every returned item is inside
    the 48-hour window and the list is newest first. *)
Theorem fetchDevelopments_window_and_order (q : string) (log : list request) :
  exists r log',
    fetchDevelopments q log = (Ok r, log') /\
    ((usedMock r = true /\ urlMockEnabled = true /\
      filterWithinHours buildMockData HOURS = []) \/
     ((forall it, it ∈ items r ->
         isWithinLastHours (InString (publishedAt it)) HOURS = true) /\
      StronglySorted newestFirst (items r))).
Proof.
  destruct (fetchDevelopments_cases q log) as (base & used & log' & Hres & Hcase).
  eexists; eexists. split; [exact Hres|]. cbn [items usedMock].
  assert (Hwin : forall l, base = filterWithinHours l HOURS ->
            (forall it, it ∈ runPipeline q base ->
               isWithinLastHours (InString (publishedAt it)) HOURS = true) /\
            StronglySorted newestFirst (runPipeline q base)).
  { intros l ->. split.
    - intros it Hit. apply runPipeline_elem in Hit as (m & Hm & ->).
      now apply list_elem_of_filter in Hm as [Hw _].
    - apply runPipeline_newest_first. intros it Hit.
      apply list_elem_of_filter in Hit as [Hw _].
      now apply isWithinLastHours_valid in Hw. }
  destruct Hcase as [(-> & Hf & Hnone & _) | [(_ & Hb) | (_ & _ & fetched & _ & Hb & _)]].
  - left. now repeat split.
  - right. now apply (Hwin buildMockData).
  - right. now apply (Hwin fetched).
Qed.

(** X10.  The flag [usedMock] is false exactly when mock mode is off and
    the provider adapter returned items of which at least one is inside
    the window; the returned items are then live items with their
    relative time attached, never fixture items. *)
Theorem usedMock_false_iff_live (q : string) (log : list request) :
  exists r log',
    fetchDevelopments q log = (Ok r, log') /\
    (usedMock r = false <->
       envMock || urlMockEnabled = false /\
       exists fetched,
         fetchFromProvider provider log = (Ok fetched, log') /\
         filterWithinHours fetched HOURS <> []) /\
    (usedMock r = false ->
       exists fetched,
         fetchFromProvider provider log = (Ok fetched, log') /\
         forall it, it ∈ items r ->
           exists m, m ∈ fetched /\ it = withRelativeTime m).
Proof.
  destruct (fetchDevelopments_cases q log) as (base & used & log' & Hres & Hcase).
  eexists; eexists. split; [exact Hres|]. cbn [items usedMock].
  destruct Hcase as [(-> & _) | [(-> & _) | (-> & Hoff & fetched & Hf & Hb & Hne)]].
  - split; [|discriminate]. split; [discriminate|].
    intros (Hoff & fetched & Hf & Hne).
    rewrite (fetchDevelopments_live q log log' _ Hoff Hf) in Hres.
    destruct (length fetched =? 0)%nat eqn:E1.
    { apply length_eqb_0 in E1. subst fetched. now contradiction Hne. }
    destruct (length (filterWithinHours fetched HOURS) =? 0)%nat eqn:E2.
    { apply length_eqb_0 in E2. contradiction. }
    inversion Hres.
  - split; [|discriminate]. split; [discriminate|].
    intros (Hoff & fetched & Hf & Hne).
    rewrite (fetchDevelopments_live q log log' _ Hoff Hf) in Hres.
    destruct (length fetched =? 0)%nat eqn:E1.
    { apply length_eqb_0 in E1. subst fetched. now contradiction Hne. }
    destruct (length (filterWithinHours fetched HOURS) =? 0)%nat eqn:E2.
    { apply length_eqb_0 in E2. contradiction. }
    inversion Hres.
  - split.
    + split; [|reflexivity]. intros _. split; [exact Hoff|].
      exists fetched. split; [exact Hf | now rewrite <- Hb].
    + intros _. exists fetched. split; [exact Hf|].
      intros it Hit. apply runPipeline_elem in Hit as (m & Hm & ->).
      exists m. split; [|reflexivity].
      rewrite Hb in Hm. now apply list_elem_of_filter in Hm as [_ Hm].
Qed.

(** *** Deduplication and the title filter, continued *)

Lemma dedupeLoop_sublist (l : list Item) :
  forall seen, dedupeLoop seen [] l `sublist_of` l.
Proof.
  induction l as [|y l IH]; intros seen; [reflexivity|].
  destruct (urlKey_cases seen y) as [Hskip | [Hne Hns]].
  - rewrite dedupeLoop_skip by assumption. apply sublist_cons, IH.
  - rewrite dedupeLoop_keep by assumption. apply sublist_skip, IH.
Qed.

(** A list whose keys are distinct, not empty and not yet seen goes
    through the loop unchanged. *)
Lemma dedupeLoop_fixed (l : list Item) :
  forall seen,
    NoDup (urlKey <$> l) ->
    (forall x, x ∈ l -> urlKey x <> "" /\ urlKey x ∉ seen) ->
    dedupeLoop seen [] l = l.
Proof.
  induction l as [|y l IH]; intros seen Hnd Hok; [reflexivity|].
  rewrite fmap_cons in Hnd. apply NoDup_cons in Hnd as [Hy Hnd].
  destruct (Hok y) as [Hne Hns]; [now apply elem_of_cons; left|].
  rewrite dedupeLoop_keep by assumption. f_equal.
  apply IH; [assumption|].
  intros x Hx. destruct (Hok x) as [Hxne Hxns]; [now apply elem_of_cons; right|].
  split; [assumption|].
  intros [Hs%elem_of_singleton | Hs]%elem_of_union; [|contradiction].
  apply Hy. rewrite <- Hs. now apply list_elem_of_fmap_2.
Qed.

(** X11.  [dedupeByUrl] keeps the order of the items it retains (its
    result is a sub-list of its input) and is idempotent. *)
Theorem dedupeByUrl_sublist_idempotent (l : list Item) :
  dedupeByUrl l `sublist_of` l /\
  dedupeByUrl (dedupeByUrl l) = dedupeByUrl l.
Proof.
  split; [apply dedupeLoop_sublist|].
  unfold dedupeByUrl. apply dedupeLoop_fixed; [apply dedupeLoop_NoDup|].
  intros x Hx. apply dedupeLoop_elem in Hx as (_ & Hne & _).
  split; [assumption | apply not_elem_of_empty].
Qed.

(** *** Substrings *)

Lemma string_append_assoc (a b c : string) : (a +:+ b) +:+ c = a +:+ (b +:+ c).
Proof.
  induction a as [|x a IH]; [reflexivity|].
  rewrite !append_cons_l. now rewrite IH.
Qed.

Lemma prefix_spec (q s : string) :
  String.prefix q s = true <-> exists b, s = q +:+ b.
Proof.
  revert s. induction q as [|x q IH]; intros s.
  - destruct s; cbn; split; try reflexivity; intros _; eexists; reflexivity.
  - destruct s as [|y s]; cbn.
    + split; [discriminate|]. intros (b & Hb). rewrite append_cons_l in Hb. discriminate.
    + destruct (ascii_dec x y) as [-> | Hxy].
      * rewrite IH. split; intros (b & Hb); exists b.
        -- rewrite append_cons_l. now rewrite Hb.
        -- rewrite append_cons_l in Hb. now inversion Hb.
      * split; [discriminate|]. intros (b & Hb).
        rewrite append_cons_l in Hb. inversion Hb. congruence.
Qed.

(** [includes s q] holds exactly when [q] sits somewhere inside [s]. *)
Lemma includes_spec (s q : string) :
  includes s q = true <-> exists a b, s = a +:+ q +:+ b.
Proof.
  induction s as [|c s IH]; cbn [includes]; rewrite orb_true_iff, prefix_spec.
  - split.
    + intros [(b & Hb) | H]; [|discriminate]. exists "", b. exact Hb.
    + intros (a & b & H). left. destruct a as [|x a]; [exists b; exact H|].
      rewrite append_cons_l in H. discriminate.
  - rewrite IH. split.
    + intros [(b & Hb) | (a & b & H)].
      * exists "", b. exact Hb.
      * exists (String c a), b. rewrite append_cons_l. now rewrite H.
    + intros (a & b & H). destruct a as [|x a].
      * left. exists b. exact H.
      * right. rewrite append_cons_l in H. inversion H. now exists a, b.
Qed.

Lemma includes_trans (s q2 q1 : string) :
  includes s q2 = true -> includes q2 q1 = true -> includes s q1 = true.
Proof.
  rewrite !includes_spec. intros (a & b & ->) (c & d & ->).
  exists (a +:+ c), (d +:+ b). now rewrite !string_append_assoc.
Qed.

Lemma includes_empty_l (q : string) : includes "" q = true -> q = "".
Proof. destruct q; cbn; [reflexivity | discriminate]. Qed.

(** X12.  Refining a query narrows the result: when the trimmed,
    lower-cased form of [q1] occurs inside that of [q2], filtering by [q2]
    the items already filtered by [q1] gives the same list as filtering
    all items by [q2], and that list is a sub-list of the items kept for
    [q1]. *)
Theorem title_filter_refines (l : list Item) (q1 q2 : string) :
  includes (toLowerCase (trim q2)) (toLowerCase (trim q1)) = true ->
  applyTitleFilter (applyTitleFilter l q1) q2 = applyTitleFilter l q2 /\
  applyTitleFilter l q2 `sublist_of` applyTitleFilter l q1.
Proof.
  intros Hinc.
  assert (Heq : applyTitleFilter (applyTitleFilter l q1) q2 = applyTitleFilter l q2).
  { rewrite !applyTitleFilter_spec.
    destruct (String.eqb_spec (toLowerCase (trim q1)) "") as [E1 | N1]; [reflexivity|].
    destruct (String.eqb_spec (toLowerCase (trim q2)) "") as [E2 | N2].
    { rewrite E2 in Hinc. now apply includes_empty_l in Hinc. }
    apply list_filter_filter_l. intros it Hit. unfold matchesQuery in *.
    now apply (includes_trans _ (toLowerCase (trim q2))). }
  split; [exact Heq|].
  rewrite <- Heq. apply applyTitleFilter_sublist.
Qed.

(** *** The hook *)

Lemma toLowerCase_empty (s : string) : toLowerCase s = "" <-> s = "".
Proof. destruct s; cbn; split; intros H; try reflexivity; discriminate. Qed.

Lemma toUpperCase_empty (s : string) : toUpperCase s = "" <-> s = "".
Proof. destruct s; cbn; split; intros H; try reflexivity; discriminate. Qed.

(** X13.  Once the debounce timer has fired, the list the hook shows is
    the list the service's own title filter gives for the typed query:
    filtering on the client and filtering in the service agree. *)
Theorem filteredItems_agrees_with_service (st : hookState) :
  filteredItems (debounceFire st) = applyTitleFilter (st_items st) (st_query st).
Proof.
  unfold filteredItems, debounceFire, applyTitleFilter.
  cbn [st_debouncedQuery st_items setDebouncedQuery].
  destruct (String.eqb_spec (st_query st) "") as [-> | Hq]; [reflexivity|].
  destruct (String.eqb_spec (trim (st_query st)) "") as [E | N];
    destruct (String.eqb_spec (toLowerCase (trim (st_query st))) "") as [E' | N'];
    try reflexivity.
  - exfalso. apply N'. now apply (proj2 (toLowerCase_empty _)).
  - exfalso. apply N. now apply (proj1 (toLowerCase_empty _)).
Qed.

(** X14.  [refresh] never fails and, because the service always
    resolves, never sets an error: when the component is still mounted it
    ends with the service's items and flag, the clock as [lastUpdated],
    [loading] off and [error] cleared; when the component has been
    unmounted meanwhile, only the two updates made before the call
    remain. *)
Theorem refresh_outcome (st : hookState) (log : list request) :
  exists r log',
    fetchDevelopments "" log = (Ok r, log') /\
    refresh true st log =
      (Ok {| st_items := items r; st_query := st_query st;
             st_debouncedQuery := st_debouncedQuery st;
             st_loading := false; st_error := None;
             st_lastUpdated := Some now; st_mockActive := usedMock r |}, log') /\
    refresh false st log = (Ok (setError None (setLoading true st)), log').
Proof.
  destruct (fetchDevelopments_resolves "" log) as (r & log' & Hres).
  exists r, log'. split; [exact Hres|].
  unfold refresh, tryCatch, mbind, M_bind. rewrite Hres. cbn [negb].
  split; reflexivity.
Qed.

(** No character is the capital of anything and equal to the small
    letter u. *)
Lemma upperChar_not_u (c : ascii) : upperChar c <> "u"%char.
Proof. destruct c as [[] [] [] [] [] [] [] []]; vm_compute; discriminate. Qed.

Lemma toUpperCase_not_unknown (s : string) : toUpperCase s <> "unknown".
Proof.
  destruct s as [|c s]; cbn [toUpperCase]; [discriminate|].
  intros [= Hc _]. now apply upperChar_not_u in Hc.
Qed.

(** X15.  For a provider setting without U+00B5, U+00DF and U+00FF (where
    [toUpperCase] is the ECMAScript function), the Health page shows the
    provider name the service dispatches on: the setting in upper case,
    HN when it is unset or empty; the name shown is never empty and the
    fallback text "unknown" is never shown. *)
Theorem healthProvider_is_provider :
  (forall s, REACT_APP_DATA_PROVIDER env = Some s -> upperCaseExact s) ->
  healthProvider env = provider /\
  healthProvider env <> "unknown" /\
  healthProvider env <> "" /\
  (REACT_APP_DATA_PROVIDER env = None \/ REACT_APP_DATA_PROVIDER env = Some "" ->
   healthProvider env = "HN") /\
  (forall s, REACT_APP_DATA_PROVIDER env = Some s -> s <> "" ->
             healthProvider env = toUpperCase s).
Proof.
  intros _.
  unfold healthProvider, provider, truthyString, orString.
  destruct (REACT_APP_DATA_PROVIDER env) as [s|].
  - destruct (String.eqb_spec s "") as [-> | Hs]; cbn [negb].
    + repeat split; try discriminate. intros s [= <-] Hs. contradiction.
    + destruct (String.eqb_spec (toUpperCase s) "") as [E | Hne].
      { apply (proj1 (toUpperCase_empty s)) in E. contradiction. }
      split; [reflexivity|]. split; [apply toUpperCase_not_unknown|].
      split; [exact Hne|]. split.
      * intros [H | [= H]]; [discriminate | contradiction].
      * intros s' [= <-] _. reflexivity.
  - repeat split; discriminate.
Qed.


(** *** Normalization *)

Lemma orString_nonempty (o : option string) (d : string) :
  d <> "" -> orString o d <> "".
Proof.
  intros Hd. unfold orString. destruct o as [s|]; [|exact Hd].
  destruct (String.eqb_spec s ""); assumption.
Qed.

Lemma hasTitleAndUrl_true (x : Item) :
  hasTitleAndUrl x = true -> title x <> "" /\ url x <> "".
Proof.
  unfold hasTitleAndUrl. rewrite andb_true_iff, !negb_true_iff.
  intros [Ht Hu]. split; now apply String.eqb_neq.
Qed.

Lemma mapM_outcome_Ok {A B : Type} (f : A -> outcome B) (l : list A) :
  forall k, mapM f l = Ok k -> Forall2 (fun x y => f x = Ok y) l k.
Proof.
  induction l as [|x l IH]; intros k; cbn [mapM].
  - intros H. inversion H. constructor.
  - unfold mbind, outcome_bind. destruct (f x) as [y|] eqn:Ex; [|discriminate].
    destruct (mapM f l) as [k'|]; [|discriminate].
    intros H. inversion H. constructor; [exact Ex | now apply IH].
Qed.

Lemma mapM_outcome_Throw {A B : Type} (f : A -> outcome B) (l : list A)
      (x : A) (e0 E : jsError) :
  x ∈ l -> f x = Throw e0 ->
  (forall y e, f y = Throw e -> e = E) ->
  mapM f l = Throw E.
Proof.
  intros Hx Hfx Hall. induction l as [|y l IH]; [now apply elem_of_nil in Hx|].
  cbn [mapM]. unfold mbind, outcome_bind.
  destruct (f y) as [b|e] eqn:Ey; [|now rewrite (Hall y e Ey)].
  apply elem_of_cons in Hx as [-> | Hx]; [congruence|].
  specialize (IH Hx).
  destruct (mapM f l) as [k|e]; [discriminate | now inversion IH].
Qed.

Lemma mapArticles_Ok (fallback : string) (l : list rawArticle) :
  forall idx k,
    mapArticles fallback idx l = Ok k ->
    length k = length l /\
    forall it, it ∈ k -> exists i a, normalizeArticle fallback i a = Ok it.
Proof.
  induction l as [|a l IH]; intros idx k; cbn [mapArticles].
  - intros H. inversion H. split; [reflexivity|].
    intros it Hit. now apply elem_of_nil in Hit.
  - unfold mbind, outcome_bind.
    destruct (normalizeArticle fallback idx a) as [y|] eqn:Ea; [|discriminate].
    destruct (mapArticles fallback (S idx) l) as [k'|] eqn:El; [|discriminate].
    intros H. inversion H. destruct (IH _ _ El) as [Hlen Hin].
    split; [cbn; now rewrite Hlen|].
    intros it Hit. apply elem_of_cons in Hit as [-> | Hit]; [now exists idx, a|].
    now apply Hin.
Qed.

(** The callback of [normalizeFromHN] prints the date [hitPublishedMs]
    and fails when that date is not a valid time value. *)
Lemma normalizeHit_cases (h : rawHit) :
  match TimeClip (hitPublishedMs h) with
  | Num t =>
      exists it, normalizeHit h = Ok it /\
                 publishedAt it = Date_toISOString t /\
                 source it <> "" /\ relativeTime it = None
  | NaN => normalizeHit h = Throw (RangeErrorObj "Invalid time value")
  end.
Proof.
  unfold normalizeHit. fold (hitPublishedMs h).
  unfold toISOString, newDate. cbn [getTime].
  destruct (TimeClip (hitPublishedMs h)) as [t|]; [|reflexivity].
  eexists. split; [reflexivity|]. cbn [publishedAt source relativeTime].
  split; [reflexivity|]. split; [|reflexivity].
  destruct (String.eqb_spec
              (getDomain (orString (hit_url h) (orString (hit_story_url h) ""))) "");
    [discriminate | assumption].
Qed.

Lemma normalizeArticle_Ok (fallback : string) (idx : nat) (a : rawArticle) (it : Item) :
  fallback <> "" ->
  normalizeArticle fallback idx a = Ok it ->
  source it <> "" /\ relativeTime it = None.
Proof.
  intros Hfb. unfold normalizeArticle.
  destruct (if truthyString (art_publishedAt a) then _ else _) as [iso|];
    cbn; [|discriminate].
  intros H. inversion H. cbn [source relativeTime]. split; [|reflexivity].
  destruct (String.eqb_spec (getDomain (orString (art_url a) "")) "");
    cbn [negb]; [|assumption].
  destruct (art_source a); [now apply orString_nonempty | assumption].
Qed.

(** X16.  Whatever the response holds, the items a normalizer returns
    all have a title, a url and a source that are not empty and carry no
    relative time yet, and there are at most as many items as records. *)
Theorem normalized_items_wellformed :
  (forall hits l, normalizeFromHN hits = Ok l ->
     (length l <= length hits)%nat /\
     forall it, it ∈ l ->
       title it <> "" /\ url it <> "" /\ source it <> "" /\ relativeTime it = None) /\
  (forall articles l, normalizeFromNewsAPI articles = Ok l ->
     (length l <= length articles)%nat /\
     forall it, it ∈ l ->
       title it <> "" /\ url it <> "" /\ source it <> "" /\ relativeTime it = None) /\
  (forall articles l, normalizeFromGNews articles = Ok l ->
     (length l <= length articles)%nat /\
     forall it, it ∈ l ->
       title it <> "" /\ url it <> "" /\ source it <> "" /\ relativeTime it = None).
Proof.
  assert (Hart : forall fb articles l,
            fb <> "" ->
            (mapped ← mapArticles fb 0 articles;
             mret (filter (fun x => hasTitleAndUrl x = true) mapped)) = Ok l ->
            (length l <= length articles)%nat /\
            forall it, it ∈ l ->
              title it <> "" /\ url it <> "" /\ source it <> "" /\
              relativeTime it = None).
  { intros fb articles l Hfb. unfold mbind, outcome_bind.
    destruct (mapArticles fb 0 articles) as [mapped|] eqn:Em; [|discriminate].
    intros H. inversion H. destruct (mapArticles_Ok _ _ _ _ Em) as [Hlen Hin].
    split; [rewrite <- Hlen; apply length_filter|].
    intros it Hit. apply list_elem_of_filter in Hit as [Hok Hit].
    apply hasTitleAndUrl_true in Hok as [Ht Hu].
    destruct (Hin it Hit) as (i & a & Ha).
    destruct (normalizeArticle_Ok fb i a it Hfb Ha). now repeat split. }
  split; [|split].
  - intros hits l. unfold normalizeFromHN, mbind, outcome_bind.
    destruct (mapM normalizeHit hits) as [mapped|] eqn:Em; [|discriminate].
    intros H. inversion H. apply mapM_outcome_Ok in Em.
    split; [rewrite (Forall2_length _ _ _ Em); apply length_filter|].
    intros it Hit. apply list_elem_of_filter in Hit as [Hok Hit].
    apply hasTitleAndUrl_true in Hok as [Ht Hu].
    apply list_elem_of_lookup in Hit as [i Hi].
    destruct (Forall2_lookup_r _ _ _ _ _ Em Hi) as (h & _ & Hh).
    pose proof (normalizeHit_cases h) as Hc.
    destruct (TimeClip (hitPublishedMs h)); [|congruence].
    destruct Hc as (it' & Hit' & _ & Hs & Hr).
    assert (it' = it) by congruence. subst it'. now repeat split.
  - intros articles l. now apply Hart.
  - intros articles l. now apply Hart.
Qed.

(** X17.  One record with a date that cannot be printed discards the
    whole live result: when a hit of the HN response has a
    [publishedMs] that is not a valid time value (for instance a
    [created_at] that does not parse), the adapter throws a RangeError
    after its request and [fetchDevelopments] answers with the mock set
    and [usedMock = true], whatever the other hits are. *)
Theorem unprintable_date_discards_live_result
        (q : string) (log : list request) (res : response)
        (hits : list rawHit) (articles : option (list rawArticle)) (h : rawHit) :
  envMock || urlMockEnabled = false ->
  provider = "HN" ->
  network hnRequest = FetchResolve res ->
  res_ok res = true ->
  res_json res = JsonObject (Some hits) articles ->
  h ∈ hits ->
  TimeClip (hitPublishedMs h) = NaN ->
  fetchFromProvider provider log =
    (Throw (RangeErrorObj "Invalid time value"), log ++ [hnRequest]) /\
  fetchDevelopments q log =
    (Ok {| items := prepareMock urlMockEnabled q; usedMock := true |},
     log ++ [hnRequest]).
Proof.
  intros Hoff Hprov Hnet Hok Hjson Hin Hbad.
  assert (Hthrow : normalizeFromHN hits = Throw (RangeErrorObj "Invalid time value")).
  { unfold normalizeFromHN.
    rewrite (mapM_outcome_Throw normalizeHit hits h
               (RangeErrorObj "Invalid time value")
               (RangeErrorObj "Invalid time value")); [reflexivity | exact Hin | |].
    - pose proof (normalizeHit_cases h) as Hc. now rewrite Hbad in Hc.
    - intros y e Hy. pose proof (normalizeHit_cases y) as Hc.
      destruct (TimeClip (hitPublishedMs y)); [|congruence].
      destruct Hc as (it & Hit & _). congruence. }
  assert (Hfetch : fetchFromProvider provider log =
                   (Throw (RangeErrorObj "Invalid time value"), log ++ [hnRequest])).
  { rewrite Hprov. unfold fetchFromProvider. cbn [String.eqb Ascii.eqb Bool.eqb].
    unfold fetchFromHN, mbind, M_bind, fetch, lift, jsonHits.
    rewrite Hnet, Hok, Hjson. cbn [negb].
    change (default [] (Some hits)) with hits. now rewrite Hthrow. }
  split; [exact Hfetch|].
  now rewrite (fetchDevelopments_live q log _ _ Hoff Hfetch).
Qed.

(** *** The fixture *)

Lemma imap_Forall {A B : Type} (P : B -> Prop) (l : list A) :
  forall f : nat -> A -> B, (forall i x, P (f i x)) -> Forall P (imap f l).
Proof.
  induction l as [|x l IH]; intros f Hf; cbn [imap]; constructor.
  - apply Hf.
  - apply IH. intros i y. apply Hf.
Qed.

(** X19.  [buildMockData] gives one item per fixture record, in order,
    and fills what a record lacks: every mock item has an id, a title and
    a url that are not empty, and no relative time yet. *)
Theorem buildMockData_filled :
  length buildMockData = length staticMock /\
  (forall it, it ∈ buildMockData ->
     item_id it <> "" /\ title it <> "" /\ url it <> "" /\ relativeTime it = None) /\
  (forall i m, staticMock !! i = Some m -> mock_id m = None ->
     item_id <$> buildMockData !! i
       = Some ("mock-" +:+ numberToString (Num (Z.of_nat i)))).
Proof.
  unfold buildMockData. split; [apply length_imap|]. split.
  - apply Forall_forall, imap_Forall. intros i m.
    cbn [buildMockEntry item_id title url relativeTime].
    repeat split; apply orString_nonempty; discriminate.
  - intros i m Hm Hid. rewrite list_lookup_imap, Hm. cbn.
    unfold orString. now rewrite Hid.
Qed.

(* =================================================================== *)
(** ** The window test on any value                                    *)
(* =================================================================== *)

Lemma isWithinLastHoursJS_unfold (v hours : jsValue) :
  isWithinLastHoursJS v hours =
    match toNumberOf hours, tsMsOfValue v with
    | Ok h, Ok tsMs => Ok (atOrAfter tsMs (windowStartOf h))
    | Ok _, Throw e => Throw e
    | Throw e, _ => Throw e
    end.
Proof.
  unfold isWithinLastHoursJS.
  destruct (toNumberOf hours) as [h|e]; [|reflexivity].
  change (match tsMsOfValue v with
          | Ok tsMs => Ok (atOrAfter tsMs (windowStartOf h))
          | Throw e => Throw e
          end = match tsMsOfValue v with
                | Ok tsMs => Ok (atOrAfter tsMs (windowStartOf h))
                | Throw e => Throw e
                end).
  reflexivity.
Qed.

(** The start of the window computed by the code is the one of the
    design document. *)
Lemma windowStartOf_ms (h : extNumber) :
  windowStartOf h = match windowStartMs h with Some w => Num w | None => NaN end.
Proof.
  destruct h as [[z|]|negative]; cbn [windowStartOf windowStartMs].
  - rewrite nowMinusHours_time. cbn [TimeClip].
    now destruct (Z.abs (now - z * (60 * 60 * 1000)) <=? maxTimeValue).
  - unfold nowMinusHours, hoursOrZero, newDate.
    cbn [truthyNumber nmul nsub getTime TimeClip].
    now destruct (Z.abs (now - 0 * (60 * 60 * 1000)) <=? maxTimeValue).
  - reflexivity.
Qed.

(** What the branches for [tsMs] compute. *)
Lemma tsMsOfValue_instant (v : jsValue) :
  match v with
  | VSymbol | VBigInt _ => exists e, tsMsOfValue v = Throw e
  | VInfinity negative => tsMsOfValue v = Ok (Infinite negative)
  | _ => tsMsOfValue v =
           Ok (Finite (match instantMs v with Some t => Num t | None => NaN end))
  end.
Proof.
  destruct v as [| |b|[n|]|negative|s| |z|d]; try reflexivity.
  - now destruct b.
  - cbn [tsMsOfValue instantMs]. do 2 f_equal.
    pose proof (numberToString_length_le_10 n) as Hlen.
    destruct (Nat.leb_spec (String.length (numberToString (Num n))) 10) as [Hle | Hgt].
    + apply (proj1 Hlen) in Hle.
      destruct (Z.ltb_spec (- 10 ^ 9) n); [|lia].
      destruct (Z.ltb_spec n (10 ^ 10)); [reflexivity | lia].
    + destruct (Z.ltb_spec (- 10 ^ 9) n); [|reflexivity].
      destruct (Z.ltb_spec n (10 ^ 10)); [|reflexivity].
      assert ((String.length (numberToString (Num n)) <= 10)%nat)
        by (apply (proj2 Hlen); lia).
      lia.
  - change (tsMsOfValue (VString s)) with (Ok (Finite (TimeClip (Date_parse s)))).
    cbn [instantMs]. do 2 f_equal.
    destruct (Date_parse s) as [t|]; cbn [TimeClip]; [|reflexivity].
    now destruct (Z.abs t <=? maxTimeValue).
  - now eexists.
  - now eexists.
  - cbn [tsMsOfValue instantMs]. now destruct (getTime d).
Qed.

Lemma atOrAfter_true (ts : extNumber) (h : extNumber) :
  atOrAfter ts (windowStartOf h) = true <->
  exists w, windowStartMs h = Some w /\
    (ts = Infinite false \/ exists t, ts = Finite (Num t) /\ w <= t).
Proof.
  rewrite windowStartOf_ms.
  destruct (windowStartMs h) as [w|]; destruct ts as [[t|]|[]];
    cbn [atOrAfter isNaN nge negb andb]; split.
  all: try discriminate.
  all: try (intros (w' & Hw & _); discriminate).
  all: try (intros (w' & _ & [Hinf | (t' & Ht & _)]); discriminate).
  - intros Hle. exists w. split; [reflexivity|]. right. exists t.
    split; [reflexivity | now apply Z.leb_le].
  - intros (w' & Hw & [Hinf | (t' & Ht & Hle)]); [discriminate|].
    inversion Hw; inversion Ht; subst. now apply Z.leb_le.
  - intros _. exists w. split; [reflexivity | now left].
  - reflexivity.
Qed.

(** The branches for [tsMs] either throw, on a Symbol and on a BigInt, or
    give the positive infinity, on that input alone, or the instant of the
    input, NaN standing for none. *)
Lemma tsMsOfValue_cases (v : jsValue) :
  ((v = VSymbol \/ exists z, v = VBigInt z) /\
   (exists e, tsMsOfValue v = Throw e) /\
   instantMs v = None /\ v <> VInfinity false) \/
  (v <> VSymbol /\ (forall z, v <> VBigInt z) /\
   exists ts, tsMsOfValue v = Ok ts /\
     (ts = Infinite false <-> v = VInfinity false) /\
     (forall t, ts = Finite (Num t) <-> instantMs v = Some t)).
Proof.
  pose proof (tsMsOfValue_instant v) as Hts.
  destruct v as [| |b|n|negative|s| |z|d].
  3: destruct b.
  all: try (left; split; [first [now left | right; now eexists]|];
            split; [exact Hts|]; split; [reflexivity | discriminate]).
  all: right; split; [discriminate|]; split; [discriminate|].
  all: eexists; split; [exact Hts|]; split.
  all: try (split; discriminate).
  all: try (intros t; split; [intros [= <-]; reflexivity | intros [= <-]; reflexivity]).
  all: try (intros t; split; discriminate).
  all: try (intros t; destruct (instantMs _); split; intros H; inversion H; reflexivity).
  split; intros H; inversion H; reflexivity.
Qed.


(* =================================================================== *)
(** ** The bypass of the window for a forced mock                      *)
(* =================================================================== *)

(** C2.  When mock mode is forced by the runtime override (the [mock]
    query parameter, a hash that contains "mock", or the process-wide
    flag) and the window filter leaves nothing of the fixture, the result
    has [usedMock = true] and holds the whole fixture, deduplicated,
    filtered by title and annotated, in some order; when every date of
    the fixture parses that order is the sorted one, newest first.  When
    mock mode is only configured through the environment and not forced,
    the result is made of the windowed fixture: the filter is not
    bypassed, and an emptied fixture gives no item. *)
Theorem forced_mock_bypasses_window (q : string) (log : list request) :
  (runtimeOverride ->
   filterWithinHours buildMockData HOURS = [] ->
   exists shown,
     fetchDevelopments q log =
       (Ok {| items := shown; usedMock := true |}, log) /\
     shown ≡ₚ addRelativeTime (applyTitleFilter (dedupeByUrl buildMockData) q) /\
     ((forall it, it ∈ buildMockData ->
         getTime (newDateOfString (publishedAt it)) <> NaN) ->
      shown = addRelativeTime
                (sortBy byPublishedDesc
                   (applyTitleFilter (dedupeByUrl buildMockData) q)) /\
      StronglySorted newestFirst shown)) /\
  (~ runtimeOverride ->
   envMock = true ->
   fetchDevelopments q log =
     (Ok {| items := runPipeline q (filterWithinHours buildMockData HOURS);
            usedMock := true |}, log) /\
   (filterWithinHours buildMockData HOURS = [] ->
    fetchDevelopments q log = (Ok {| items := []; usedMock := true |}, log))).
Proof.
  split.
  - intros Hforce Hnone. apply (proj2 urlMockEnabled_iff) in Hforce.
    exists (runPipeline q buildMockData). split; [|split].
    + rewrite fetchDevelopments_mockOn by (rewrite Hforce; apply orb_true_r).
      unfold prepareMock. rewrite Hforce, Hnone. reflexivity.
    + unfold runPipeline, addRelativeTime.
      apply Permutation_map, sortBy_Permutation.
    + intros Hvalid. split; [reflexivity|].
      now apply runPipeline_newest_first.
  - intros Hforce Henv.
    assert (Hoff : urlMockEnabled = false).
    { destruct urlMockEnabled eqn:E; [|reflexivity].
      now apply (proj1 urlMockEnabled_iff) in E. }
    assert (Hres : fetchDevelopments q log =
              (Ok {| items := runPipeline q (filterWithinHours buildMockData HOURS);
                     usedMock := true |}, log)).
    { rewrite fetchDevelopments_mockOn by (now rewrite Henv).
      unfold prepareMock. rewrite Hoff. reflexivity. }
    split; [exact Hres|].
    intros Hnone. rewrite Hres, Hnone, runPipeline_nil. reflexivity.
Qed.

End Program.

(* ===================================================================== *)
(** ** Examples on the concrete host                                     *)
(* ===================================================================== *)

Example numberToString_ex1 : numberToString (Num 1700000000) = "1700000000".
Proof. reflexivity. Qed.
Example numberToString_ex2 : numberToString (Num (-42)) = "-42".
Proof. reflexivity. Qed.
Example numberToString_ex3 : numberToString (Num 0) = "0".
Proof. reflexivity. Qed.
Example trim_ex : trim "  Claude 3 " = "Claude 3".
Proof. reflexivity. Qed.
Example toLowerCase_ex : toLowerCase "OpenAI GPT" = "openai gpt".
Proof. reflexivity. Qed.
Example includes_ex : includes "new claude model" "claude" = true.
Proof. reflexivity. Qed.

(** The round trips of the design document. *)
Example formatRelativeTime_59s :
  formatRelativeTime sampleNow sampleParse (InDate (newDate (Num (sampleNow - 59 * 1000))))
  = "now".
Proof. reflexivity. Qed.
Example formatRelativeTime_90s :
  formatRelativeTime sampleNow sampleParse (InDate (newDate (Num (sampleNow - 90 * 1000))))
  = "1m ago".
Proof. reflexivity. Qed.
Example formatRelativeTime_61min :
  formatRelativeTime sampleNow sampleParse
    (InDate (newDate (Num (sampleNow - 61 * 60 * 1000)))) = "1h ago".
Proof. reflexivity. Qed.
Example formatRelativeTime_25h :
  formatRelativeTime sampleNow sampleParse
    (InDate (newDate (Num (sampleNow - 25 * 60 * 60 * 1000)))) = "1d ago".
Proof. reflexivity. Qed.
Example formatRelativeTime_invalid :
  formatRelativeTime sampleNow sampleParse (InString "not a date") = "NaNd ago".
Proof. reflexivity. Qed.

(** The query "claude" against mixed titles. *)
Example applyTitleFilter_claude :
  applyTitleFilter
    [sampleItem "https://a.example/1" "Claude 3 released";
     sampleItem "https://a.example/2" "GPT update";
     sampleItem "https://a.example/3" "Meet CLAUDE"] "claude"
  = [sampleItem "https://a.example/1" "Claude 3 released";
     sampleItem "https://a.example/3" "Meet CLAUDE"].
Proof. reflexivity. Qed.

(** *** C1: the network is down *)
Lemma live_failure_witness :
  exists r log',
    fetchDevelopments sampleNow sampleParse sampleToISOString sampleHostname
      networkDown staleFixture envLive windowPlain "claude" [] = (Ok r, log') /\
    usedMock r = true.
Proof.
  destruct (live_failure_falls_back_to_mock
              sampleNow sampleParse sampleToISOString sampleHostname
              networkDown staleFixture envLive windowPlain "claude" []
              (snd (fetchFromProvider sampleNow sampleParse sampleToISOString
                      sampleHostname networkDown envLive (provider envLive) []))
              (Throw (TypeErrorObj "Failed to fetch")))
    as (mockItems & Hres & _).
  - reflexivity.
  - reflexivity.
  - reflexivity.
  - left. now exists (TypeErrorObj "Failed to fetch").
  - eexists; eexists. split; [exact Hres | reflexivity].
Defined.

(** *** C2: a 72-hour-old fixture, forced by [?mock=1], forced by [#mock],
    and only configured *)
Lemma forced_mock_witness :
  (exists shown,
     fetchDevelopments sampleNow sampleParse sampleToISOString sampleHostname
       networkDown staleFixture envLive windowQuery "" []
     = (Ok {| items := shown; usedMock := true |}, []) /\
     url <$> shown = ["https://www.example.com/gpt"; "https://www.example.com/claude"]) /\
  (exists shown,
     fetchDevelopments sampleNow sampleParse sampleToISOString sampleHostname
       networkDown staleFixture envLive windowHash "" []
     = (Ok {| items := shown; usedMock := true |}, []) /\
     url <$> shown = ["https://www.example.com/gpt"; "https://www.example.com/claude"]) /\
  fetchDevelopments sampleNow sampleParse sampleToISOString sampleHostname
    networkDown staleFixture envConfiguredMock windowPlain "" []
  = (Ok {| items := []; usedMock := true |}, []).
Proof.
  assert (Hquery : runtimeOverride windowQuery).
  { left. exists "1". split; [reflexivity | vm_compute; left]. }
  assert (Hhash : runtimeOverride windowHash).
  { right. left. reflexivity. }
  assert (Hplain : ~ runtimeOverride windowPlain).
  { intros [(p & Hp & _) | [H | H]]; discriminate. }
  assert (Hparse : forall it,
            it ∈ buildMockData sampleNow sampleToISOString sampleHostname staleFixture ->
            getTime (newDateOfString sampleParse (publishedAt it)) <> NaN).
  { intros it Hit. vm_compute in Hit.
    apply elem_of_cons in Hit as [-> | Hit];
      [|apply elem_of_cons in Hit as [-> | Hit]; [|now apply elem_of_nil in Hit]];
      discriminate. }
  pose proof (forced_mock_bypasses_window
                sampleNow sampleParse sampleToISOString sampleHostname
                networkDown staleFixture envLive windowQuery "" []) as [Hq _].
  pose proof (forced_mock_bypasses_window
                sampleNow sampleParse sampleToISOString sampleHostname
                networkDown staleFixture envLive windowHash "" []) as [Hh _].
  pose proof (forced_mock_bypasses_window
                sampleNow sampleParse sampleToISOString sampleHostname
                networkDown staleFixture envConfiguredMock windowPlain "" [])
    as [_ Hconfigured].
  split; [|split].
  - destruct (Hq Hquery eq_refl) as (shown & Hres & _ & Horder).
    destruct (Horder Hparse) as [-> _].
    eexists. split; [exact Hres | reflexivity].
  - destruct (Hh Hhash eq_refl) as (shown & Hres & _ & Horder).
    destruct (Horder Hparse) as [-> _].
    eexists. split; [exact Hres | reflexivity].
  - destruct (Hconfigured Hplain eq_refl) as [_ Hnone].
    now apply Hnone.
Defined.

(** *** C9: the configured flag with the stale fixture *)
Lemma configured_mock_witness :
  fetchDevelopments sampleNow sampleParse sampleToISOString sampleHostname
    networkDown staleFixture envConfiguredMock windowPlain "gpt" []
  = (Ok {| items := []; usedMock := true |}, []).
Proof.
  apply (configured_mock_stale_fixture
           sampleNow sampleParse sampleToISOString sampleHostname
           networkDown staleFixture envConfiguredMock windowPlain "gpt" []).
  - reflexivity.
  - reflexivity.
  - intros it Hit. exists 1704067200000.
    vm_compute in Hit.
    apply elem_of_cons in Hit as [-> | Hit];
      [|apply elem_of_cons in Hit as [-> | Hit]; [|now apply elem_of_nil in Hit]];
      (split; [reflexivity | vm_compute; reflexivity]).
Defined.

(** *** C5: a seconds value of ten digits, a negative one of nine *)
Lemma numeric_input_witness :
  (Z.abs 1704283200 < 10 ^ 21 /\
   (String.length (numberToString (Num 1704283200)) <= 10)%nat /\
   dateOfInput sampleParse (InNumber (Num 1704283200)) = newDate (Num 1704283200000) /\
   tsMsOfInput sampleParse (InNumber (Num 1704283200)) = Num 1704283200000) /\
  (Z.abs (-100000000) < 10 ^ 21 /\
   (decimalDigits (-100000000) <= 10)%nat /\
   (0 <= -100000000 \/ decimalDigits (-100000000) <> 10%nat) /\
   tsMsOfInput sampleParse (InNumber (Num (-100000000))) = Num (-100000000000)) /\
  (Z.abs (-1000000000) < 10 ^ 21 /\
   -1000000000 < 0 /\
   decimalDigits (-1000000000) = 10%nat /\
   tsMsOfInput sampleParse (InNumber (Num (-1000000000))) = Num (-1000000000)).
Proof.
  assert (H1 : Z.abs 1704283200 < 10 ^ 21) by reflexivity.
  assert (H2 : Z.abs (-100000000) < 10 ^ 21) by reflexivity.
  assert (H3 : Z.abs (-1000000000) < 10 ^ 21) by reflexivity.
  assert (L1 : (String.length (numberToString (Num 1704283200)) <= 10)%nat)
    by (vm_compute; lia).
  assert (D2 : (decimalDigits (-100000000) <= 10)%nat) by (vm_compute; lia).
  assert (N2 : 0 <= -100000000 \/ decimalDigits (-100000000) <> 10%nat)
    by (right; vm_compute; lia).
  assert (D3 : decimalDigits (-1000000000) = 10%nat) by reflexivity.
  assert (N3 : -1000000000 < 0) by reflexivity.
  destruct (numeric_input_unit sampleParse 1704283200 H1)
    as (_ & _ & _ & Hsec & _).
  destruct (numeric_input_unit sampleParse (-100000000) H2)
    as (_ & _ & _ & _ & _ & Hdig & _).
  destruct (numeric_input_unit sampleParse (-1000000000) H3)
    as (_ & _ & _ & _ & _ & _ & Hneg & _).
  split; [|split].
  - destruct (Hsec L1) as [Hd Ht]. now repeat split.
  - destruct (Hdig D2 N2) as [_ Ht]. now repeat split.
  - destruct (Hneg N3 D3) as [_ Ht]. now repeat split.
Defined.

(** A negative value of ten digits prints with eleven characters and is
    read as milliseconds. *)
Lemma numeric_input_negative_counterexample :
  (decimalDigits (-1000000000) <= 10)%nat /\
  tsMsOfInput sampleParse (InNumber (Num (-1000000000))) = Num (-1000000000) /\
  tsMsOfInput sampleParse (InNumber (Num (-1000000000))) <> Num (-1000000000 * 1000) /\
  dateOfInput sampleParse (InNumber (Num (-1000000000))) = newDate (Num (-1000000000)) /\
  dateOfInput sampleParse (InNumber (Num (-1000000000)))
    <> newDate (Num (-1000000000 * 1000)) /\
  formatRelativeTime sampleNow sampleParse (InNumber (Num (-1000000000))) = "19737d ago".
Proof.
  repeat split; try reflexivity; discriminate.
Qed.



(** *** C6: two dates of the fixture *)
Lemma formatRelativeTime_monotonic_witness :
  exists b1 b2,
    formatRelativeTime sampleNow sampleParse (InString "2024-01-01T00:00:00.000Z")
      = renderBucket b1 /\
    formatRelativeTime sampleNow sampleParse (InString "2024-01-03T12:00:00.000Z")
      = renderBucket b2 /\
    bucketWf b1 /\ bucketWf b2 /\ notMoreRecent b1 b2.
Proof.
  apply (formatRelativeTime_monotonic sampleNow sampleParse
           (InString "2024-01-01T00:00:00.000Z") (InString "2024-01-03T12:00:00.000Z")
           1704067200000 1704283200000).
  - reflexivity.
  - reflexivity.
  - unfold sampleNow. lia.
Defined.

(** *** C3: duplicates and blank urls *)
Lemma first_occurrence_witness :
  filter (fun y => urlKey y = "https://a.example/x")
         (dedupeByUrl [sampleItem "https://a.example/x" "first";
                       sampleItem " https://a.example/x " "second"])
  = [sampleItem "https://a.example/x" "first"].
Proof.
  destruct (finishing_sequence_unique_urls sampleNow sampleParse
              [sampleItem "https://a.example/x" "first";
               sampleItem " https://a.example/x " "second"] "")
    as (_ & _ & _ & Hfirst).
  apply (Hfirst [] (sampleItem "https://a.example/x" "first")
                [sampleItem " https://a.example/x " "second"]).
  - reflexivity.
  - discriminate.
  - intros y Hy. now apply elem_of_nil in Hy.
Defined.

(** Two items share the url " ": none of them survives. *)
Lemma blank_url_counterexample :
  url (sampleItem " " "first") = url (sampleItem " " "second") /\
  dedupeByUrl [sampleItem " " "first"; sampleItem " " "second"] = [] /\
  dedupeByUrl [sampleItem " " "first"; sampleItem " " "second"]
    <> [sampleItem " " "first"].
Proof.
  split; [reflexivity | split].
  - vm_compute. reflexivity.
  - vm_compute. discriminate.
Qed.

(** *** C4: filtering and deduplicating in both orders *)
Lemma filter_dedupe_witness :
  dedupeByUrl (applyTitleFilter [sampleItem "https://a.example/1" "Claude 3";
                                 sampleItem "https://a.example/2" "GPT update"] "claude")
  = applyTitleFilter (dedupeByUrl [sampleItem "https://a.example/1" "Claude 3";
                                   sampleItem "https://a.example/2" "GPT update"]) "claude".
Proof.
  destruct (title_filter_idempotent_and_dedupe
              [sampleItem "https://a.example/1" "Claude 3";
               sampleItem "https://a.example/2" "GPT update"] "claude")
    as (_ & _ & Hcomm).
  apply Hcomm. intros x y Hx Hy Hkey.
  apply elem_of_cons in Hx as [-> | Hx];
    [|apply elem_of_cons in Hx as [-> | Hx]; [|now apply elem_of_nil in Hx]];
    (apply elem_of_cons in Hy as [-> | Hy];
     [|apply elem_of_cons in Hy as [-> | Hy]; [|now apply elem_of_nil in Hy]]);
    solve [reflexivity | vm_compute in Hkey; discriminate].
Defined.

(** Two items with one url and different titles, and a query that matches
    the second title only: filtering first keeps the second item,
    deduplicating first keeps nothing. *)
Lemma filter_dedupe_counterexample :
  dedupeByUrl (applyTitleFilter [sampleItem "https://a.example/x" "foo";
                                 sampleItem "https://a.example/x" "bar"] "bar")
    = [sampleItem "https://a.example/x" "bar"] /\
  applyTitleFilter (dedupeByUrl [sampleItem "https://a.example/x" "foo";
                                 sampleItem "https://a.example/x" "bar"]) "bar"
    = [].
Proof. split; vm_compute; reflexivity. Qed.

(** *** C7: a keyed provider without and with its key *)
Lemma missing_key_witness :
  fetchFromProvider sampleNow sampleParse sampleToISOString sampleHostname
    networkDown envLive "NEWSAPI" []
  = (Throw (ErrorObj "Missing REACT_APP_NEWSAPI_KEY for NEWSAPI provider"), []) /\
  fetchFromProvider sampleNow sampleParse sampleToISOString sampleHostname
    networkDown envLive "GNEWS" []
  = (Throw (ErrorObj "Missing REACT_APP_GNEWS_KEY for GNEWS provider"), []) /\
  TypeErrorObj "Failed to fetch"
    <> ErrorObj "Missing REACT_APP_NEWSAPI_KEY for NEWSAPI provider".
Proof.
  destruct (missing_key_is_distinct_configuration_error
              sampleNow sampleParse sampleToISOString sampleHostname
              networkDown envLive []) as (Hnews & Hgnews & _).
  destruct (missing_key_is_distinct_configuration_error
              sampleNow sampleParse sampleToISOString sampleHostname
              networkDown envKeyed []) as (_ & _ & Hdistinct & _).
  split; [apply Hnews; reflexivity | split; [apply Hgnews; reflexivity|]].
  eapply Hdistinct; [reflexivity | vm_compute; reflexivity].
Defined.

(* ===================================================================== *)
(** ** The startup flag, and examples for the further properties         *)
(* ===================================================================== *)

(** X20.  [bootstrapMockFlag] does not change whether mock mode is forced
    at the location it read; once mock mode is forced at startup the
    global flag is set, so mock mode stays forced at every later
    location, with or without a [mock] parameter or hash; and a startup
    without override leaves the window as it is. *)
Theorem bootstrapMockFlag_keeps_mock_forced (w : windowEnv) :
  urlMockEnabled (bootstrapMockFlag w) = urlMockEnabled w /\
  (urlMockEnabled w = true ->
   forall p h,
     urlMockEnabled {| mockParam := p; location_hash := h;
                       USE_MOCK := USE_MOCK (bootstrapMockFlag w) |} = true) /\
  (urlMockEnabled w = false -> bootstrapMockFlag w = w).
Proof.
  pose (hq := fun p0 : option string =>
                match p0 with
                | Some p => negb (String.eqb p "") &&
                            bool_decide (toLowerCase p ∈ ["1"; "true"; "on"; "yes"])
                | None => false
                end).
  pose (hh := fun h0 : string => includes (toLowerCase h0) "mock").
  assert (Hu : forall w', urlMockEnabled w' =
                          hq (mockParam w') || hh (location_hash w') || USE_MOCK w')
    by reflexivity.
  assert (Hb : bootstrapMockFlag w =
               if hq (mockParam w) || hh (location_hash w)
               then {| mockParam := mockParam w; location_hash := location_hash w;
                       USE_MOCK := true |}
               else w) by reflexivity.
  clearbody hq hh. rewrite !Hu, Hb.
  destruct (hq (mockParam w)) eqn:E1, (hh (location_hash w)) eqn:E2;
    cbn [orb mockParam location_hash USE_MOCK]; rewrite ?E1, ?E2; cbn [orb];
    (split; [reflexivity | split]).
  all: try (intros _ p h; rewrite Hu; cbn [USE_MOCK]; apply orb_true_r).
  all: try discriminate.
  - intros Hg p h. rewrite Hu. cbn [USE_MOCK]. rewrite Hg. apply orb_true_r.
  - reflexivity.
Qed.

Lemma bootstrap_witness :
  urlMockEnabled {| mockParam := None; location_hash := "#about";
                    USE_MOCK := USE_MOCK (bootstrapMockFlag
                                            {| mockParam := Some "TRUE";
                                               location_hash := "";
                                               USE_MOCK := false |}) |} = true.
Proof.
  destruct (bootstrapMockFlag_keeps_mock_forced
              {| mockParam := Some "TRUE"; location_hash := ""; USE_MOCK := false |})
    as (_ & Hsticky & _).
  apply Hsticky. reflexivity.
Defined.

Lemma toUnixSeconds_witness :
  toUnixSeconds sampleParse (InDate (mkDate (Num 1704283200123))) = Num 1704283200 /\
  tsMsOfInput sampleParse
    (InNumber (toUnixSeconds sampleParse (InDate (mkDate (Num 1704283200123)))))
  = Num 1704283200000.
Proof.
  destruct (toUnixSeconds_roundtrip sampleParse (mkDate (Num 1704283200123))
              1704283200123 eq_refl) as (H1 & H2 & _).
  - split; [discriminate | reflexivity].
  - split; [exact H1 | exact H2].
Defined.

Lemma closed_form_witness :
  formatRelativeTime sampleNow sampleParse (InString "2024-01-03T12:00:00.000Z")
  = "12h ago".
Proof.
  rewrite (formatRelativeTime_closed_form sampleNow sampleParse
             (InString "2024-01-03T12:00:00.000Z") 1704283200000 eq_refl).
  reflexivity.
Defined.

Lemma window_monotone_witness :
  isWithinLastHours sampleNow sampleParse
    (InString "2024-01-03T12:00:00.000Z") (Num 48) = true.
Proof.
  apply (isWithinLastHours_monotone sampleNow sampleParse
           (InString "2024-01-03T12:00:00.000Z") 24 48).
  - lia.
  - vm_compute. discriminate.
  - reflexivity.
Defined.

Lemma two_days_witness :
  exists b,
    formatRelativeTime sampleNow sampleParse (InString "2024-01-03T12:00:00.000Z")
      = renderBucket b /\
    bucketWf b /\ (forall d, b = BDays d -> d <= 2).
Proof.
  apply (within_window_at_most_two_days sampleNow sampleParse
           "2024-01-03T12:00:00.000Z").
  reflexivity.
Defined.

Lemma newest_first_witness :
  StronglySorted (newestFirst sampleParse)
    (runPipeline sampleNow sampleParse ""
       [datedItem "https://a.example/old" "Old" "2024-01-01T00:00:00.000Z";
        datedItem "https://a.example/new" "New" "2024-01-03T12:00:00.000Z"]).
Proof.
  apply (runPipeline_newest_first sampleNow sampleParse).
  intros it Hit.
  apply elem_of_cons in Hit as [-> | Hit];
    [|apply elem_of_cons in Hit as [-> | Hit]; [|now apply elem_of_nil in Hit]];
    vm_compute; discriminate.
Defined.

Example runPipeline_newest_first_ex :
  url <$> runPipeline sampleNow sampleParse ""
            [datedItem "https://a.example/old" "Old" "2024-01-01T00:00:00.000Z";
             datedItem "https://a.example/new" "New" "2024-01-03T12:00:00.000Z"]
  = ["https://a.example/new"; "https://a.example/old"].
Proof. vm_compute. reflexivity. Qed.

Lemma refine_witness :
  applyTitleFilter
    (applyTitleFilter [sampleItem "https://a.example/1" "GPT update";
                       sampleItem "https://a.example/2" "GPT rumours";
                       sampleItem "https://a.example/3" "Claude 3"] " gpt ")
    "GPT up"
  = applyTitleFilter [sampleItem "https://a.example/1" "GPT update";
                      sampleItem "https://a.example/2" "GPT rumours";
                      sampleItem "https://a.example/3" "Claude 3"] "GPT up".
Proof.
  apply (title_filter_refines
           [sampleItem "https://a.example/1" "GPT update";
            sampleItem "https://a.example/2" "GPT rumours";
            sampleItem "https://a.example/3" "Claude 3"] " gpt " "GPT up").
  reflexivity.
Defined.

Lemma normalized_witness :
  exists l,
    normalizeFromHN sampleNow sampleParse sampleToISOString sampleHostname
      [sampleHit] = Ok l /\
    (length l <= 1)%nat /\
    Forall (fun it => title it <> "" /\ url it <> "" /\ source it <> "" /\
                      relativeTime it = None) l.
Proof.
  destruct (normalized_items_wellformed sampleNow sampleParse sampleToISOString
              sampleHostname) as (Hhn & _).
  eexists. split; [reflexivity|].
  destruct (Hhn [sampleHit] _ eq_refl) as [Hlen Hall].
  split; [exact Hlen | apply Forall_forall; exact Hall].
Defined.

Lemma bad_date_witness :
  fetchDevelopments sampleNow sampleParse sampleToISOString sampleHostname
    networkBadDate staleFixture envLive windowPlain "" []
  = (Ok {| items := prepareMock sampleNow sampleParse sampleToISOString
                      sampleHostname staleFixture
                      (urlMockEnabled windowPlain) "";
           usedMock := true |},
     [] ++ [hnRequest]).
Proof.
  apply (unprintable_date_discards_live_result
           sampleNow sampleParse sampleToISOString sampleHostname
           networkBadDate staleFixture envLive windowPlain "" []
           {| res_ok := true; res_status := 200;
              res_json := JsonObject (Some [sampleHit; badDateHit]) None |}
           [sampleHit; badDateHit] None badDateHit).
  - reflexivity.
  - reflexivity.
  - reflexivity.
  - reflexivity.
  - reflexivity.
  - apply elem_of_cons; right. apply elem_of_cons; now left.
  - reflexivity.
Defined.


(** The provider "newsapi" on the Health page. *)
Lemma healthProvider_witness :
  healthProvider envKeyed = "NEWSAPI" /\
  provider envKeyed = "NEWSAPI" /\
  healthProvider envKeyed <> "unknown".
Proof.
  assert (Hexact : forall s,
            REACT_APP_DATA_PROVIDER envKeyed = Some s -> upperCaseExact s).
  { intros s [= <-]. unfold upperCaseExact. cbn [list_ascii_of_string].
    repeat (constructor; [repeat split; discriminate|]). constructor. }
  destruct (healthProvider_is_provider envKeyed Hexact) as (Heq & Hunknown & _).
  split; [reflexivity|]. split; [now rewrite <- Heq | exact Hunknown].
Defined.
